(** * Aviary report generators (aviary/interface/reports.py)

    A shallow embedding of [subsystem_report] and [mission_report] together
    with the host interfaces they call: the problem's [get_val] query, NumPy
    indexing and subtraction, [pathlib.Path.mkdir], [open] and the markdown
    table writer. *)

From Stdlib Require Import ZArith List String Ascii Bool Floats Lia.
From stdpp Require Import base option gmap strings list.

Local Open Scope string_scope.
Local Open Scope Z_scope.

Set Warnings "-register-all".

(** ** Exceptions and the result monad *)

(** The Python exceptions that occur in the report code and in the host
    calls it makes. *)
Inductive exn : Type :=
| KeyError
| TypeError
| IndexError
| ValueError
| UnboundLocalError
| FileNotFoundError
| FileExistsError
| IsADirectoryError
| NotADirectoryError
| OtherError (msg : string).

Inductive result (A : Type) : Type :=
| Ok (a : A)
| Raise (e : exn).
Arguments Ok {A} a.
Arguments Raise {A} e.

Definition rbind {A B : Type} (r : result A) (k : A -> result B) : result B :=
  match r with
  | Ok a => k a
  | Raise e => Raise e
  end.

Definition rmap {A B : Type} (f : A -> B) (r : result A) : result B :=
  match r with
  | Ok a => Ok (f a)
  | Raise e => Raise e
  end.

Declare Scope result_scope.
Delimit Scope result_scope with result.
Notation "x <- e ;; k" := (rbind e (fun x => k))
  (at level 100, e at next level, right associativity) : result_scope.
Local Open Scope result_scope.

(** Monadic map over a list, written with an inner [fix] so that it can be
    used on the items of a nested array. *)
Definition mapM {A B : Type} (f : A -> result B) : list A -> result (list B) :=
  fix go (l : list A) : result (list B) :=
    match l with
    | [] => Ok []
    | x :: l' => y <- f x ;; ys <- go l' ;; Ok (y :: ys)
    end.

Definition zipWithM {A B C : Type} (f : A -> B -> result C)
  : list A -> list B -> result (list C) :=
  fix go (la : list A) (lb : list B) : result (list C) :=
    match la, lb with
    | x :: la', y :: lb' => z <- f x y ;; zs <- go la' lb' ;; Ok (z :: zs)
    | _, _ => Ok []
    end.

(** ** NumPy values *)

(** A NumPy value is a float64 scalar or an array of values along its first
    axis.  [Num] stands for [np.float64], [Arr] for [np.ndarray]. *)
Inductive ndarray : Type :=
| Num (x : float)
| Arr (items : list ndarray).

(** Python values bound to the variables of [mission_report]: [None] or a
    NumPy value. *)
Inductive pyval : Type :=
| PyNone
| Nd (a : ndarray).

(** The [indices] argument of [get_val]: absent, one integer, or a list of
    integers. *)
Inductive indices : Type :=
| IdxNone
| IdxInt (i : Z)
| IdxList (l : list Z).

(** Position of Python index [i] in a sequence of length [n]; negative
    indices count from the end. *)
Definition norm_index (n : nat) (i : Z) : option nat :=
  if (0 <=? i) && (i <? Z.of_nat n) then Some (Z.to_nat i)
  else if (- Z.of_nat n <=? i) && (i <? 0) then Some (Z.to_nat (Z.of_nat n + i))
  else None.

(** [a[i]] for an integer [i]. *)
Definition getitem (a : ndarray) (i : Z) : result ndarray :=
  match a with
  | Num _ => Raise IndexError
  | Arr l =>
      match norm_index (length l) i with
      | Some k =>
          match l !! k with
          | Some x => Ok x
          | None => Raise IndexError
          end
      | None => Raise IndexError
      end
  end.

(** [a[indices]] as [get_val] applies it. *)
Definition numpy_index (a : ndarray) (idx : indices) : result ndarray :=
  match idx with
  | IdxNone => Ok a
  | IdxInt i => getitem a i
  | IdxList l =>
      match a with
      | Num _ => Raise IndexError
      | Arr _ => rmap Arr (mapM (getitem a) l)
      end
  end.

(** Number of axes, read along the first item of every axis. *)
Fixpoint rank (a : ndarray) : nat :=
  match a with
  | Num _ => 0
  | Arr [] => 1
  | Arr (x :: _) => S (rank x)
  end.

(** [a - b] with NumPy broadcasting: shapes are aligned from the last axis;
    an axis of length one is stretched; other length mismatches raise
    [ValueError]. *)
Fixpoint np_sub (a b : ndarray) {struct a} : result ndarray :=
  match a with
  | Num x =>
      (fix sub_num (b : ndarray) : result ndarray :=
         match b with
         | Num y => Ok (Num (x - y)%float)
         | Arr lb => rmap Arr (mapM sub_num lb)
         end) b
  | Arr la =>
      (fix sub_arr (b : ndarray) : result ndarray :=
         match b with
         | Num y => rmap Arr (mapM (fun a' => np_sub a' (Num y)) la)
         | Arr lb =>
             match Nat.compare (rank (Arr la)) (rank (Arr lb)) with
             | Gt => rmap Arr (mapM (fun a' => np_sub a' (Arr lb)) la)
             | Lt => rmap Arr (mapM sub_arr lb)
             | Eq =>
                 if Nat.eqb (length la) (length lb)
                 then rmap Arr (zipWithM np_sub la lb)
                 else
                   match la, lb with
                   | [a1], _ => rmap Arr (mapM (fun b' => np_sub a1 b') lb)
                   | _, [b1] => rmap Arr (mapM (fun a' => np_sub a' b1) la)
                   | _, _ => Raise ValueError
                   end
             end
         end) b
  end.

(** [v[i]] on a Python value: [None] is not subscriptable. *)
Definition py_getitem (v : pyval) (i : Z) : result pyval :=
  match v with
  | PyNone => Raise TypeError
  | Nd a => rmap Nd (getitem a i)
  end.

(** [v - w] on Python values: [None] supports no arithmetic. *)
Definition py_sub (v w : pyval) : result pyval :=
  match v, w with
  | Nd a, Nd b => rmap Nd (np_sub a b)
  | _, _ => Raise TypeError
  end.

(** ** Python dictionaries and named value tables *)

(** A Python [dict] keyed by strings, kept in insertion order: assigning an
    existing key replaces its value in place, a new key goes to the end. *)
Definition pydict (V : Type) : Type := list (string * V).

Fixpoint dict_set {V : Type} (k : string) (v : V) (d : pydict V) : pydict V :=
  match d with
  | [] => [(k, v)]
  | (k', v') :: d' =>
      if String.eqb k k' then (k', v) :: d' else (k', v') :: dict_set k v d'
  end.

Fixpoint dict_get {V : Type} (k : string) (d : pydict V) : result V :=
  match d with
  | [] => Raise KeyError
  | (k', v') :: d' => if String.eqb k k' then Ok v' else dict_get k d'
  end.

Definition dict_keys {V : Type} (d : pydict V) : list string := map fst d.

(** Modelled from the spec: [aviary.utils.named_values.NamedValues] is not
    among the sources.  The spec describes it as an ordered mapping from a
    label to a (value, unit string) pair, insertion order preserved, keys
    unique; [set_val] stores a value with its unit under a label. *)
Definition NamedValues : Type := pydict (pyval * string).

Definition set_val (name : string) (val : pyval) (units : string)
    (nv : NamedValues) : NamedValues :=
  dict_set name (val, units) nv.

(** ** The problem interface *)

(** A path in the file system, as its components. *)
Definition path : Type := list string.

(** [folder / name] of [pathlib]. *)
Definition path_join (folder : path) (name : string) : path := (folder ++ [name])%list.

(** What the report generators ask of the solved problem: [get_val(path,
    units=, indices=)], the ordered phase names of [phase_info], and
    [get_reports_dir()]. *)
Record ProblemData : Type := {
  get_val : string -> string -> indices -> result ndarray;
  phase_info : list string;
  get_reports_dir : path
}.

(** ** Phase value extraction *)

Section PhaseValues.

Variable prob : ProblemData.

(** Lines 66-84. *)
Definition _get_phase_value (traj phase var_name units : string)
    (idx : indices) : result pyval :=
  match get_val prob (traj +:+ "." +:+ phase +:+ ".timeseries." +:+ var_name)
          units idx with
  | Ok vals => Ok (Nd vals)
  | Raise KeyError =>
      match get_val prob (traj +:+ "." +:+ phase +:+ "." +:+ var_name)
              units idx with
      | Ok vals => Ok (Nd vals)
      | Raise TypeError =>
          rmap Nd (get_val prob (traj +:+ "." +:+ phase +:+ ".timeseries.time")
                     units idx)
      | Raise KeyError => Ok PyNone
      | Raise e => Raise e
      end
  | Raise e => Raise e
  end.

(** [diff[0]] when [diff] is an [np.ndarray], [diff] itself otherwise
    (lines 91-92). *)
Definition first_if_array (diff : ndarray) : result ndarray :=
  match diff with
  | Arr _ => getitem diff 0
  | Num _ => Ok diff
  end.

(** Lines 86-95. *)
Definition _get_phase_diff (traj phase var_name units : string)
    (idx : indices) : result pyval :=
  vals <- _get_phase_value traj phase var_name units idx ;;
  match vals with
  | Nd a =>
      last <- getitem a (-1) ;;
      first <- getitem a 0 ;;
      diff <- np_sub last first ;;
      rmap Nd (first_if_array diff)
  | PyNone => Ok PyNone
  end.

(** The default value of the [indices] parameter of [_get_phase_diff]. *)
Definition default_indices : indices := IdxList [0; -1].

(** The local variables of [mission_report] that the phase loop assigns;
    [None] is a name not yet bound. *)
Record locals : Type := {
  data : pydict NamedValues;
  initial_mass : option pyval;
  initial_time : option pyval;
  initial_range : option pyval;
  final_mass : option pyval;
  final_time : option pyval;
  final_range : option pyval
}.

Definition locals0 : locals :=
  {| data := []; initial_mass := None; initial_time := None;
     initial_range := None; final_mass := None; final_time := None;
     final_range := None |}.

(** One iteration of the loop of lines 102-125. *)
Definition phase_step (idx : nat) (phase : string) (st : locals) : result locals :=
  fuel_burn <- _get_phase_diff "traj" phase "mass" "lbm" (IdxList [-1; 0]) ;;
  time <- _get_phase_diff "traj" phase "t" "min" default_indices ;;
  range <- _get_phase_diff "traj" phase "distance" "nmi" default_indices ;;
  st1 <- (if Nat.eqb idx 0 then
            m <- _get_phase_value "traj" phase "mass" "lbm" (IdxInt 0) ;;
            m0 <- py_getitem m 0 ;;
            t0 <- _get_phase_value "traj" phase "t" "min" (IdxInt 0) ;;
            r <- _get_phase_value "traj" phase "distance" "nmi" (IdxInt 0) ;;
            r0 <- py_getitem r 0 ;;
            Ok {| data := data st; initial_mass := Some m0;
                  initial_time := Some t0; initial_range := Some r0;
                  final_mass := final_mass st; final_time := final_time st;
                  final_range := final_range st |}
          else Ok st) ;;
  let outputs : NamedValues := [] in
  let outputs := set_val "Fuel Burn" fuel_burn "lbm" outputs in
  let outputs := set_val "Elapsed Time" time "min" outputs in
  let outputs := set_val "Ground Distance" range "nmi" outputs in
  let data' := dict_set phase outputs (data st1) in
  m <- _get_phase_value "traj" phase "mass" "lbm" (IdxInt (-1)) ;;
  m1 <- py_getitem m 0 ;;
  t1 <- _get_phase_value "traj" phase "t" "min" (IdxInt (-1)) ;;
  r <- _get_phase_value "traj" phase "distance" "nmi" (IdxInt (-1)) ;;
  r1 <- py_getitem r 0 ;;
  Ok {| data := data'; initial_mass := initial_mass st1;
        initial_time := initial_time st1; initial_range := initial_range st1;
        final_mass := Some m1; final_time := Some t1; final_range := Some r1 |}.

(** [for idx, phase in enumerate(...)], from index [idx] on. *)
Fixpoint phase_loop (idx : nat) (phases : list string) (st : locals)
    : result locals :=
  match phases with
  | [] => Ok st
  | phase :: rest =>
      st' <- phase_step idx phase st ;;
      phase_loop (S idx) rest st'
  end.

(** Reading a local name; unbound names raise. *)
Definition read_local (v : option pyval) : result pyval :=
  match v with
  | Some x => Ok x
  | None => Raise UnboundLocalError
  end.

(** Lines 127-130. *)
Definition mission_totals (st : locals) : result NamedValues :=
  let totals : NamedValues := [] in
  m0 <- read_local (initial_mass st) ;;
  m1 <- read_local (final_mass st) ;;
  burn <- py_sub m0 m1 ;;
  let totals := set_val "Total Fuel Burn" burn "lbm" totals in
  t1 <- read_local (final_time st) ;;
  t0 <- read_local (initial_time st) ;;
  dt <- py_sub t1 t0 ;;
  let totals := set_val "Total Time" dt "min" totals in
  r1 <- read_local (final_range st) ;;
  r0 <- read_local (initial_range st) ;;
  dr <- py_sub r1 r0 ;;
  let totals := set_val "Total Ground Distance" dr "nmi" totals in
  Ok totals.

(** Lines 100-130: the tables computed before the report file is opened. *)
Definition mission_tables : result (NamedValues * pydict NamedValues) :=
  st <- phase_loop 0 (phase_info prob) locals0 ;;
  totals <- mission_totals st ;;
  Ok (totals, data st).

End PhaseValues.

(** ** The file system and the report document *)

(** What has been written to a file: text passed to [f.write], and tables
    emitted by the markdown table writer, one row per variable with its
    label, value and unit. *)
Inductive chunk : Type :=
| Text (s : string)
| Table (rows : list (string * pyval * string)).

Inductive node : Type :=
| Dir
| File (content : list chunk).

Abbreviation fs := (gmap path node).

(** Computations that may change the file system and may raise; the file
    system at the raise is kept. *)
Definition io (A : Type) : Type := fs -> result A * fs.

Definition io_ret {A : Type} (a : A) : io A := fun s => (Ok a, s).

Definition io_bind {A B : Type} (m : io A) (k : A -> io B) : io B :=
  fun s =>
    match m s with
    | (Ok a, s') => k a s'
    | (Raise e, s') => (Raise e, s')
    end.

Definition io_lift {A : Type} (r : result A) : io A := fun s => (r, s).

Declare Scope io_scope.
Delimit Scope io_scope with io.
Notation "x <<- e ;; k" := (io_bind e (fun x => k))
  (at level 100, e at next level, right associativity) : io_scope.
Notation "e ;;; k" := (io_bind e (fun _ => k))
  (at level 100, right associativity) : io_scope.
Local Open Scope io_scope.

(** [pathlib]'s parent of a path. *)
Definition parent (p : path) : path := removelast p.

(** [Path.mkdir(exist_ok=True)] with the default [parents=False]: an
    existing directory is accepted, an existing file is not, and the parent
    must be a directory.  Permissions and disk space are outside the model. *)
Definition mkdir_exist_ok (p : path) : io unit :=
  fun s =>
    match s !! p with
    | Some Dir => (Ok tt, s)
    | Some (File _) => (Raise FileExistsError, s)
    | None =>
        match s !! parent p with
        | Some Dir => (Ok tt, <[p := Dir]> s)
        | Some (File _) => (Raise NotADirectoryError, s)
        | None => (Raise FileNotFoundError, s)
        end
    end.

(** [open(p, mode='w')]: creates the file or truncates it; the handle is the
    path. *)
Definition open_w (p : path) : io path :=
  fun s =>
    match s !! p with
    | Some Dir => (Raise IsADirectoryError, s)
    | _ =>
        match s !! parent p with
        | Some Dir => (Ok p, <[p := File []]> s)
        | Some (File _) => (Raise NotADirectoryError, s)
        | None => (Raise FileNotFoundError, s)
        end
    end.

(** Appending a chunk to an open file. *)
Definition emit (f : path) (c : chunk) : io unit :=
  fun s =>
    match s !! f with
    | Some (File content) => (Ok tt, <[f := File (content ++ [c])%list]> s)
    | _ => (Raise ValueError, s)
    end.

(** [f.write(text)]. *)
Definition f_write (f : path) (text : string) : io unit := emit f (Text text).

(** One table row: the unit asked for in the metadata and the value stored
    under the label.  Conversion between different units is outside the
    model: the stored unit has to be the requested one. *)
Definition table_row (table : NamedValues) (metadata : pydict (pydict string))
    (name : string) : result (string * pyval * string) :=
  meta <- dict_get name metadata ;;
  units <- dict_get "units" meta ;;
  entry <- dict_get name table ;;
  if String.eqb (snd entry) units then Ok (name, fst entry, units)
  else Raise (OtherError "unit conversion").

(** Modelled from the spec: [write_markdown_variable_table] of
    [aviary.interface.utils.markdown_utils] is not among the sources.  The
    spec has it render a named value table as one row per requested label,
    in the order requested, each with its value and unit. *)
Definition write_markdown_variable_table (f : path) (table : NamedValues)
    (outputs : list string) (metadata : pydict (pydict string)) : io unit :=
  rows <<- io_lift (mapM (table_row table metadata) outputs) ;;
  emit f (Table rows).

(** The line feed character of ["\n"]. *)
Definition nl : string := String (ascii_of_nat 10) EmptyString.

(** ** The report generators *)

(** Pass-through keyword options. *)
Definition kwargs : Type := pydict string.

(** A subsystem builder: its [report(prob, reports_folder, **kwargs)]. *)
Record SubsystemBuilder : Type := {
  report : ProblemData -> path -> kwargs -> io unit
}.

(** The solved problem: the queries above and the registered subsystem
    builders by name. *)
Record AviaryProblem : Type := {
  prob_data :> ProblemData;
  core_subsystems : pydict SubsystemBuilder
}.

(** Lines 53-54. *)
Fixpoint report_all (prob : AviaryProblem) (subsystems : list SubsystemBuilder)
    (reports_folder : path) (kw : kwargs) : io unit :=
  match subsystems with
  | [] => io_ret tt
  | subsystem :: rest =>
      report subsystem prob reports_folder kw ;;;
      report_all prob rest reports_folder kw
  end.

(** Lines 37-54. *)
Definition subsystem_report (prob : AviaryProblem) (kw : kwargs) : io unit :=
  let reports_folder := path_join (get_reports_dir prob) "subsystems" in
  mkdir_exist_ok reports_folder ;;;
  report_all prob (map snd (core_subsystems prob)) reports_folder kw.

Definition totals_outputs : list string :=
  ["Total Fuel Burn"; "Total Time"; "Total Ground Distance"].

Definition totals_metadata : pydict (pydict string) :=
  [("Total Fuel Burn", [("units", "lbm")]);
   ("Total Time", [("units", "min")]);
   ("Total Ground Distance", [("units", "nmi")])].

Definition phase_outputs : list string :=
  ["Fuel Burn"; "Elapsed Time"; "Ground Distance"].

Definition phase_metadata : pydict (pydict string) :=
  [("Fuel Burn", [("units", "lbm")]);
   ("Elapsed Time", [("units", "min")]);
   ("Ground Distance", [("units", "nmi")])].

(** Lines 143-148: [for phase in data]. *)
Fixpoint write_segments (f : path) (data : pydict NamedValues)
    (keys : list string) : io unit :=
  match keys with
  | [] => io_ret tt
  | phase :: rest =>
      f_write f (nl +:+ "## " +:+ phase) ;;;
      table <<- io_lift (dict_get phase data) ;;
      write_markdown_variable_table f table phase_outputs phase_metadata ;;;
      write_segments f data rest
  end.

(** Lines 57-148. *)
Definition mission_report (prob : AviaryProblem) (kw : kwargs) : io unit :=
  let reports_folder := get_reports_dir prob in
  let report_file := path_join reports_folder "mission_summary.md" in
  tables <<- io_lift (mission_tables prob) ;;
  let totals := fst tables in
  let data := snd tables in
  f <<- open_w report_file ;;
  f_write f "# MISSION SUMMARY" ;;;
  write_markdown_variable_table f totals totals_outputs totals_metadata ;;;
  f_write f (nl +:+ "# MISSION SEGMENTS") ;;;
  write_segments f data (dict_keys data).

(** The file the mission report is written to. *)
Definition report_file (prob : AviaryProblem) : path :=
  path_join (get_reports_dir prob) "mission_summary.md".

(** ** Problems backed by a variable store *)

(** The host framework's [get_val]: the variable at [path] expressed in
    [units], or the exception the lookup raises, then indexed as
    [val[indices]]. *)
Definition store_get_val (vars : string -> string -> result ndarray)
    (p units : string) (idx : indices) : result ndarray :=
  val <- vars p units ;;
  numpy_index val idx.

Definition store_problem (vars : string -> string -> result ndarray)
    (phases : list string) (dir : path) (subs : pydict SubsystemBuilder)
    : AviaryProblem :=
  {| prob_data := {| get_val := store_get_val vars; phase_info := phases;
                     get_reports_dir := dir |};
     core_subsystems := subs |}.

(** A variable table for examples: each path holds an array in one unit;
    a missing path raises [KeyError], another unit [TypeError]. *)
Definition table_vars (t : pydict (string * ndarray)) (p units : string)
    : result ndarray :=
  entry <- dict_get p t ;;
  if String.eqb (fst entry) units then Ok (snd entry) else Raise TypeError.

(** A column array of shape (n, 1). *)
Definition column (xs : list float) : ndarray := Arr (map (fun x => Arr [Num x]) xs).

(** An array of shape (n,). *)
Definition vector (xs : list float) : ndarray := Arr (map Num xs).

Definition demo_vars : pydict (string * ndarray) :=
  [("traj.climb.timeseries.mass", ("lbm", column [1000; 990; 980]%float));
   ("traj.climb.t", ("min", vector [0; 5; 10]%float));
   ("traj.climb.timeseries.distance", ("nmi", column [0; 20; 40]%float));
   ("traj.cruise.timeseries.mass", ("lbm", column [980; 900; 800]%float));
   ("traj.cruise.t", ("min", vector [10; 60; 110]%float));
   ("traj.cruise.timeseries.distance", ("nmi", column [40; 400; 800]%float));
   ("traj.descent.timeseries.mass", ("lbm", column [800; 795; 790]%float));
   ("traj.descent.t", ("min", vector [110; 120; 130]%float));
   ("traj.descent.timeseries.distance", ("nmi", column [800; 850; 900]%float))].

Definition demo_fs : fs := <[ ["reports"] := Dir ]> ∅.

Definition demo_problem : AviaryProblem :=
  store_problem (table_vars demo_vars) ["climb"; "cruise"; "descent"] ["reports"] [].

(** The demonstration mission with the mass of the cruise phase found under
    neither path. *)
Definition no_mass_vars : pydict (string * ndarray) :=
  [("traj.climb.timeseries.mass", ("lbm", column [1000; 990; 980]%float));
   ("traj.climb.t", ("min", vector [0; 5; 10]%float));
   ("traj.climb.timeseries.distance", ("nmi", column [0; 20; 40]%float));
   ("traj.cruise.t", ("min", vector [10; 60; 110]%float));
   ("traj.cruise.timeseries.distance", ("nmi", column [40; 400; 800]%float));
   ("traj.descent.timeseries.mass", ("lbm", column [800; 795; 790]%float));
   ("traj.descent.t", ("min", vector [110; 120; 130]%float));
   ("traj.descent.timeseries.distance", ("nmi", column [800; 850; 900]%float))].

Definition no_mass_problem : AviaryProblem :=
  store_problem (table_vars no_mass_vars) ["climb"; "cruise"; "descent"] ["reports"] [].

(** A single climb phase whose time series is stored as a column, as the
    time series of mass and distance are. *)
Definition column_time_vars : pydict (string * ndarray) :=
  [("traj.climb.timeseries.mass", ("lbm", column [1000; 990; 980]%float));
   ("traj.climb.timeseries.t", ("min", column [0; 5; 10]%float));
   ("traj.climb.timeseries.distance", ("nmi", column [0; 20; 40]%float))].

Definition column_time_problem : AviaryProblem :=
  store_problem (table_vars column_time_vars) ["climb"] ["reports"] [].

(** The same phase with the time read from the scalar path. *)
Definition single_vars : pydict (string * ndarray) :=
  [("traj.climb.timeseries.mass", ("lbm", column [1000; 990; 980]%float));
   ("traj.climb.t", ("min", vector [0; 5; 10]%float));
   ("traj.climb.timeseries.distance", ("nmi", column [0; 20; 40]%float))].

Definition single_problem : AviaryProblem :=
  store_problem (table_vars single_vars) ["climb"] ["reports"] [].

(** A problem without phases. *)
Definition empty_problem : AviaryProblem :=
  store_problem (table_vars []) [] ["reports"] [].

(** ** Definitions used to state the properties *)

(** The array a phase variable resolves to in a problem backed by a store,
    before indexing: the time series, else the scalar path, else the time
    series of time; [None] when the first two paths are missing. *)
Definition resolve (vars : string -> string -> result ndarray)
    (traj phase var_name units : string) : result (option ndarray) :=
  match vars (traj +:+ "." +:+ phase +:+ ".timeseries." +:+ var_name) units with
  | Ok a => Ok (Some a)
  | Raise KeyError =>
      match vars (traj +:+ "." +:+ phase +:+ "." +:+ var_name) units with
      | Ok a => Ok (Some a)
      | Raise TypeError =>
          rmap Some (vars (traj +:+ "." +:+ phase +:+ ".timeseries.time") units)
      | Raise KeyError => Ok None
      | Raise e => Raise e
      end
  | Raise e => Raise e
  end.

(** Lengths of the axes, read along the first item of every axis. *)
Fixpoint shape (a : ndarray) : list nat :=
  match a with
  | Num _ => []
  | Arr [] => [0%nat]
  | Arr (x :: l) => S (length l) :: shape x
  end.

(** Rectangular arrays: all items of an axis have the same shape. *)
Fixpoint rect (a : ndarray) : bool :=
  match a with
  | Num _ => true
  | Arr l =>
      forallb rect l &&
      match l with
      | [] => true
      | x :: l' => forallb (fun y => bool_decide (shape y = shape x)) l'
      end
  end.

(** The fixed unit of each metric. *)
Definition fixed_unit (label : string) : option string :=
  if String.eqb label "Total Fuel Burn" || String.eqb label "Fuel Burn"
  then Some "lbm"
  else if String.eqb label "Total Time" || String.eqb label "Elapsed Time"
  then Some "min"
  else if String.eqb label "Total Ground Distance"
          || String.eqb label "Ground Distance"
  then Some "nmi"
  else None.

(** An entry of a named value table carries the unit of its metric. *)
Definition entry_has_unit (e : string * (pyval * string)) : Prop :=
  snd (snd e) <> "" /\ fixed_unit (fst e) = Some (snd (snd e)).

(** A rendered row carries the unit of its metric. *)
Definition row_has_unit (r : string * pyval * string) : Prop :=
  snd r <> "" /\ fixed_unit (fst (fst r)) = Some (snd r).

Definition chunk_has_units (c : chunk) : Prop :=
  match c with
  | Text _ => True
  | Table rows => Forall row_has_unit rows
  end.

(** The three rows of the totals table. *)
Definition totals_rows (burn dt dr : pyval) : list (string * pyval * string) :=
  [("Total Fuel Burn", burn, "lbm");
   ("Total Time", dt, "min");
   ("Total Ground Distance", dr, "nmi")].

(** The three rows of a phase table. *)
Definition phase_rows (v : pyval * pyval * pyval) : list (string * pyval * string) :=
  [("Fuel Burn", fst (fst v), "lbm");
   ("Elapsed Time", snd (fst v), "min");
   ("Ground Distance", snd v, "nmi")].

(** The named value table the loop stores for a phase. *)
Definition phase_table (v : pyval * pyval * pyval) : NamedValues :=
  [("Fuel Burn", (fst (fst v), "lbm"));
   ("Elapsed Time", (snd (fst v), "min"));
   ("Ground Distance", (snd v, "nmi"))].

(** The subsection of one phase: its heading and its table. *)
Definition segment (phase : string) (v : pyval * pyval * pyval) : list chunk :=
  [Text (nl +:+ "## " +:+ phase); Table (phase_rows v)].

(** The document the spec describes: the summary section with the totals
    table, then the segments section with one subsection per phase. *)
Definition summary_document (burn dt dr : pyval)
    (segments : list (string * (pyval * pyval * pyval))) : list chunk :=
  ([Text "# MISSION SUMMARY"; Table (totals_rows burn dt dr);
    Text (nl +:+ "# MISSION SEGMENTS")]
   ++ concat (map (fun s => segment (fst s) (snd s)) segments))%list.

(** The three deltas of one phase (lines 105-107). *)
Definition phase_deltas (prob : ProblemData) (phase : string)
    : result (pyval * pyval * pyval) :=
  fuel_burn <- _get_phase_diff prob "traj" phase "mass" "lbm" (IdxList [-1; 0]) ;;
  time <- _get_phase_diff prob "traj" phase "t" "min" default_indices ;;
  range <- _get_phase_diff prob "traj" phase "distance" "nmi" default_indices ;;
  Ok (fuel_burn, time, range).

(** The values read at one end of a phase (lines 111-113 with index 0,
    lines 123-125 with index -1). *)
Definition end_values (prob : ProblemData) (phase : string) (i : Z)
    : result (pyval * pyval * pyval) :=
  m <- _get_phase_value prob "traj" phase "mass" "lbm" (IdxInt i) ;;
  m0 <- py_getitem m 0 ;;
  t0 <- _get_phase_value prob "traj" phase "t" "min" (IdxInt i) ;;
  r <- _get_phase_value prob "traj" phase "distance" "nmi" (IdxInt i) ;;
  r0 <- py_getitem r 0 ;;
  Ok (m0, t0, r0).

(** Binding the initial values read at the first iteration. *)
Definition bind_initial (st : locals) (iv : pyval * pyval * pyval) : locals :=
  {| data := data st; initial_mass := Some (fst (fst iv));
     initial_time := Some (snd (fst iv)); initial_range := Some (snd iv);
     final_mass := final_mass st; final_time := final_time st;
     final_range := final_range st |}.

(** Storing the table of a phase and binding its final values. *)
Definition bind_final (phase : string) (v : pyval * pyval * pyval) (st : locals)
    (fv : pyval * pyval * pyval) : locals :=
  {| data := dict_set phase (phase_table v) (data st);
     initial_mass := initial_mass st; initial_time := initial_time st;
     initial_range := initial_range st; final_mass := Some (fst (fst fv));
     final_time := Some (snd (fst fv)); final_range := Some (snd fv) |}.

(** The table chunk the table writer emits. *)
Definition table_chunk (table : NamedValues) (outputs : list string)
    (metadata : pydict (pydict string)) : result chunk :=
  rmap Table (mapM (table_row table metadata) outputs).

(** The chunks written for one key of [data] (lines 144-148). *)
Definition segment_chunks (data : pydict NamedValues) (phase : string)
    : result (list chunk) :=
  table <- dict_get phase data ;;
  c <- table_chunk table phase_outputs phase_metadata ;;
  Ok [Text (nl +:+ "## " +:+ phase); c].

(** The chunks written between opening and closing the report file
    (lines 133-148). *)
Definition render_document (totals : NamedValues) (data : pydict NamedValues)
    : result (list chunk) :=
  t <- table_chunk totals totals_outputs totals_metadata ;;
  segs <- mapM (segment_chunks data) (dict_keys data) ;;
  Ok ([Text "# MISSION SUMMARY"; t; Text (nl +:+ "# MISSION SEGMENTS")]
      ++ concat segs)%list.

(** The named value table of the totals. *)
Definition totals_table (burn dt dr : pyval) : NamedValues :=
  [("Total Fuel Burn", (burn, "lbm"));
   ("Total Time", (dt, "min"));
   ("Total Ground Distance", (dr, "nmi"))].

(** The entry [data] holds for a phase with deltas [v]. *)
Definition data_entry (s : string * (pyval * pyval * pyval)) : string * NamedValues :=
  (fst s, phase_table (snd s)).

(** Assigning the deltas of the phases, in order, into a dictionary. *)
Definition collect (segs : pydict (pyval * pyval * pyval))
    (pvs : list (string * (pyval * pyval * pyval))) : pydict (pyval * pyval * pyval) :=
  fold_left (fun d pv => dict_set (fst pv) (snd pv) d) pvs segs.

(** Lines 133-148 on an open file. *)
Definition write_body (f : path) (totals : NamedValues) (data : pydict NamedValues)
    : io unit :=
  f_write f "# MISSION SUMMARY" ;;;
  write_markdown_variable_table f totals totals_outputs totals_metadata ;;;
  f_write f (nl +:+ "# MISSION SEGMENTS") ;;;
  write_segments f data (dict_keys data).

(** A single climb phase whose time series of time has two columns. *)
Definition two_column_time_vars : pydict (string * ndarray) :=
  [("traj.climb.timeseries.mass", ("lbm", column [1000; 990; 980]%float));
   ("traj.climb.timeseries.t",
    ("min", Arr [Arr [Num 0; Num 5]; Arr [Num 5; Num 20]; Arr [Num 10; Num 50]]%float));
   ("traj.climb.timeseries.distance", ("nmi", column [0; 20; 40]%float))].

Definition two_column_time_problem : AviaryProblem :=
  store_problem (table_vars two_column_time_vars) ["climb"] ["reports"] [].

(** The single-phase property as the spec words it: in a report written
    for a mission of one phase, each total equals the delta of that
    phase. *)
Definition totals_equal_deltas (prob : AviaryProblem) : Prop :=
  forall kw s s' p burn dt dr fuel elapsed ground,
    phase_info prob = [p] ->
    mission_report prob kw s = (Ok tt, s') ->
    s' !! report_file prob
    = Some (File (summary_document burn dt dr [(p, (fuel, elapsed, ground))])) ->
    burn = fuel /\ dt = elapsed /\ dr = ground.

(** A cruise phase that tracks its mass by time integration: the mass has
    no time series, the scalar path holds it without the unit asked for,
    and the phase has no time series of time either. *)
Definition breguet_vars : pydict (string * ndarray) :=
  [("traj.cruise.mass", ("unitless", vector [980; 900; 800]%float))].

Definition breguet_problem : AviaryProblem :=
  store_problem (table_vars breguet_vars) ["cruise"] ["reports"] [].

(** A cruise phase whose scalar time has no unit and whose time series of
    time is in minutes. *)
Definition integrated_vars : pydict (string * ndarray) :=
  [("traj.cruise.t", ("unitless", vector [10; 60; 110]%float));
   ("traj.cruise.timeseries.time", ("min", column [10; 60; 110]%float))].

Definition integrated_problem : AviaryProblem :=
  store_problem (table_vars integrated_vars) ["cruise"] ["reports"] [].

(** ** Further examples *)

(** A subsystem builder that writes one report file into the folder it is
    given, and one whose report raises. *)
Definition writing_builder (name : string) : SubsystemBuilder :=
  {| report := fun _ folder _ =>
       (f <<- open_w (path_join folder name) ;; f_write f "report")%io |}.

Definition failing_builder : SubsystemBuilder :=
  {| report := fun _ _ _ => io_lift (Raise (OtherError "no report")) |}.

Definition subsystems_problem : AviaryProblem :=
  store_problem (table_vars demo_vars) ["climb"; "cruise"; "descent"] ["reports"]
    [("aerodynamics", writing_builder "aerodynamics.md");
     ("propulsion", failing_builder);
     ("mass", writing_builder "mass.md")].

(** The demonstration mission with the time of the cruise phase found under
    neither path. *)
Definition no_time_vars : pydict (string * ndarray) :=
  [("traj.climb.timeseries.mass", ("lbm", column [1000; 990; 980]%float));
   ("traj.climb.t", ("min", vector [0; 5; 10]%float));
   ("traj.climb.timeseries.distance", ("nmi", column [0; 20; 40]%float));
   ("traj.cruise.timeseries.mass", ("lbm", column [980; 900; 800]%float));
   ("traj.cruise.timeseries.distance", ("nmi", column [40; 400; 800]%float));
   ("traj.descent.timeseries.mass", ("lbm", column [800; 795; 790]%float));
   ("traj.descent.t", ("min", vector [110; 120; 130]%float));
   ("traj.descent.timeseries.distance", ("nmi", column [800; 850; 900]%float))].

Definition no_time_problem : AviaryProblem :=
  store_problem (table_vars no_time_vars) ["climb"; "cruise"; "descent"] ["reports"] [].

(** The climb and cruise phases of that mission: the last phase has no
    time. *)
Definition no_last_time_problem : AviaryProblem :=
  store_problem (table_vars no_time_vars) ["climb"; "cruise"] ["reports"] [].

(** A single climb phase whose mass is a vector, not a column. *)
Definition flat_mass_vars : pydict (string * ndarray) :=
  [("traj.climb.timeseries.mass", ("lbm", vector [1000; 990; 980]%float));
   ("traj.climb.t", ("min", vector [0; 5; 10]%float));
   ("traj.climb.timeseries.distance", ("nmi", column [0; 20; 40]%float))].

Definition flat_mass_problem : AviaryProblem :=
  store_problem (table_vars flat_mass_vars) ["climb"] ["reports"] [].

(** A single climb phase whose time series of distance has no points. *)
Definition empty_distance_vars : pydict (string * ndarray) :=
  [("traj.climb.timeseries.mass", ("lbm", column [1000; 990; 980]%float));
   ("traj.climb.t", ("min", vector [0; 5; 10]%float));
   ("traj.climb.timeseries.distance", ("nmi", Arr []))].

Definition empty_distance_problem : AviaryProblem :=
  store_problem (table_vars empty_distance_vars) ["climb"] ["reports"] [].

(** The demonstration mission with further variables the report does not
    ask for, another reports directory aside. *)
Definition more_vars : pydict (string * ndarray) :=
  (demo_vars ++
   [("traj.climb.timeseries.altitude", ("ft", column [0; 5000; 10000]%float));
    ("traj.cruise.timeseries.mach", ("unitless", column [0.5; 0.75; 0.75]%float));
    ("other.climb.timeseries.mass", ("lbm", column [1; 2; 3]%float))])%list.

Definition more_problem : AviaryProblem :=
  store_problem (table_vars more_vars) ["climb"; "cruise"; "descent"] ["reports"]
    [("propulsion", failing_builder)].

(** The demonstration mission with two builders that write their reports. *)
Definition writers_problem : AviaryProblem :=
  store_problem (table_vars demo_vars) ["climb"; "cruise"; "descent"] ["reports"]
    [("aerodynamics", writing_builder "aerodynamics.md");
     ("mass", writing_builder "mass.md")].

(** ** The queries of the mission report *)

(** The variables the report reads, each with its unit. *)
Definition report_variables : list (string * string) :=
  [("mass", "lbm"); ("t", "min"); ("distance", "nmi")].

(** The index arguments the report passes. *)
Definition report_indices : list indices :=
  [IdxList [-1; 0]; IdxList [0; -1]; IdxInt 0; IdxInt (-1)].

(** The paths [_get_phase_value] may read for a variable of a phase of the
    trajectory named traj. *)
Definition phase_paths (phase var_name : string) : list string :=
  ["traj" +:+ "." +:+ phase +:+ ".timeseries." +:+ var_name;
   "traj" +:+ "." +:+ phase +:+ "." +:+ var_name;
   "traj" +:+ "." +:+ phase +:+ ".timeseries.time"].

(** Two problems answer alike every query the report may make. *)
Definition same_report_queries (p1 p2 : ProblemData) : Prop :=
  forall phase var_name units idx p,
    phase ∈ phase_info p1 ->
    (var_name, units) ∈ report_variables ->
    idx ∈ report_indices ->
    p ∈ phase_paths phase var_name ->
    get_val p1 p units idx = get_val p2 p units idx.

(** * Properties *)

(** ** The result monad *)

Lemma rbind_ok {A B : Type} (r : result A) (k : A -> result B) (b : B) :
  rbind r k = Ok b -> exists a, r = Ok a /\ k a = Ok b.
Proof. destruct r as [a|e]; simpl; [eauto | discriminate]. Qed.

Lemma rmap_ok {A B : Type} (f : A -> B) (r : result A) (b : B) :
  rmap f r = Ok b -> exists a, r = Ok a /\ b = f a.
Proof. destruct r as [a|e]; simpl; intros H; [injection H as <-; eauto | discriminate]. Qed.

Lemma rbind_raise {A B : Type} (r : result A) (k : A -> result B) (e : exn) :
  r = Raise e -> rbind r k = Raise e.
Proof. intros ->. reflexivity. Qed.

(** Splits successful binds found among the hypotheses. *)
Ltac inv_ok :=
  repeat match goal with
    | H : rbind _ _ = Ok _ |- _ =>
        let a := fresh "a" in
        let Ha := fresh "Ha" in
        apply rbind_ok in H as (a & Ha & H)
    | H : rmap _ _ = Ok _ |- _ =>
        let a := fresh "a" in
        let Ha := fresh "Ha" in
        apply rmap_ok in H as (a & Ha & H)
    | H : Ok _ = Ok _ |- _ => injection H as H
    | H : Raise _ = Ok _ |- _ => discriminate H
    end.

(** ** Indexing *)

Lemma getitem_head (x : ndarray) (l : list ndarray) : getitem (Arr (x :: l)) 0 = Ok x.
Proof.
  unfold getitem, norm_index.
  replace (0 <=? 0) with true by reflexivity.
  replace (0 <? Z.of_nat (length (x :: l))) with true
    by (symmetry; apply Z.ltb_lt; simpl; lia).
  reflexivity.
Qed.

Lemma getitem_0_inv (a x : ndarray) :
  getitem a 0 = Ok x -> exists l, a = Arr (x :: l).
Proof.
  destruct a as [f|[|y l]]; [discriminate 1 | discriminate 1 |].
  rewrite getitem_head. intros H. injection H as ->. eauto.
Qed.

Lemma getitem_arr (a : ndarray) (i : Z) (x : ndarray) :
  getitem a i = Ok x -> exists l, a = Arr l /\ x ∈ l.
Proof.
  destruct a as [f|l]; simpl; [discriminate|].
  destruct (norm_index (length l) i) as [k|]; [|discriminate].
  destruct (l !! k) as [y|] eqn:Hk; [|discriminate].
  intros H. injection H as <-. exists l. split; [reflexivity|].
  eapply list_elem_of_lookup_2; eauto.
Qed.

(** Reading the two ends with the index list [[i; j]] yields the pair of
    the two single reads. *)
Lemma numpy_index_pair (a x y : ndarray) (i j : Z) :
  getitem a i = Ok x -> getitem a j = Ok y ->
  numpy_index a (IdxList [i; j]) = Ok (Arr [x; y]).
Proof.
  intros Hi Hj. destruct (getitem_arr _ _ _ Hi) as (l & -> & _).
  unfold numpy_index. cbn [mapM]. rewrite Hi. cbn [rbind]. rewrite Hj. reflexivity.
Qed.

Lemma numpy_index_pair_inv (a v : ndarray) (i j : Z) :
  numpy_index a (IdxList [i; j]) = Ok v ->
  exists x y, getitem a i = Ok x /\ getitem a j = Ok y /\ v = Arr [x; y].
Proof.
  destruct a as [f|l]; [discriminate 1|].
  unfold numpy_index. cbn [mapM]. intros H. inv_ok. subst.
  eauto 6.
Qed.

Lemma getitem_pair_last (x y : ndarray) : getitem (Arr [x; y]) (-1) = Ok y.
Proof. reflexivity. Qed.

(** ** C1: the fallback chain of value extraction *)

(** C1, as the code has it.  [_get_phase_value] first reads the time-series
    path; on a missing path (KeyError) it reads the scalar path; when that
    scalar read raises TypeError the result is the read of the time series
    of time at the same units and indices, whatever that read yields, its
    exceptions included; when the scalar read itself fails with a missing
    path the result is None and no exception.  Any other exception of the
    first two reads propagates. *)
Theorem get_phase_value_fallback_chain
    (prob : ProblemData) (traj phase var_name units : string) (idx : indices) :
  let ts := traj +:+ "." +:+ phase +:+ ".timeseries." +:+ var_name in
  let sc := traj +:+ "." +:+ phase +:+ "." +:+ var_name in
  let tm := traj +:+ "." +:+ phase +:+ ".timeseries.time" in
  let r := _get_phase_value prob traj phase var_name units idx in
  (forall v, get_val prob ts units idx = Ok v -> r = Ok (Nd v)) /\
  (forall e, get_val prob ts units idx = Raise e -> e <> KeyError -> r = Raise e) /\
  (get_val prob ts units idx = Raise KeyError ->
     (forall v, get_val prob sc units idx = Ok v -> r = Ok (Nd v)) /\
     (get_val prob sc units idx = Raise TypeError ->
        r = rmap Nd (get_val prob tm units idx)) /\
     (get_val prob sc units idx = Raise KeyError -> r = Ok PyNone) /\
     (forall e, get_val prob sc units idx = Raise e ->
        e <> KeyError -> e <> TypeError -> r = Raise e)).
Proof.
  intros ts sc tm r. subst r. unfold _get_phase_value. fold ts sc tm.
  split; [|split].
  - intros v ->. reflexivity.
  - intros e -> He. destruct e; congruence.
  - intros ->. repeat split.
    + intros v ->. reflexivity.
    + intros ->. reflexivity.
    + intros ->. reflexivity.
    + intros e -> He1 He2. destruct e; congruence.
Qed.

(** The chain at work: the mass of the climb is read from its time series,
    its time from the scalar path, a variable under neither path gives
    None, and a scalar time without unit is replaced by the time series of
    time. *)
Lemma get_phase_value_fallback_chain_witness :
  _get_phase_value demo_problem "traj" "climb" "mass" "lbm" (IdxInt 0)
    = Ok (Nd (Arr [Num 1000%float])) /\
  _get_phase_value demo_problem "traj" "climb" "t" "min" (IdxInt 0)
    = Ok (Nd (Num 0%float)) /\
  _get_phase_value demo_problem "traj" "climb" "altitude" "ft" (IdxInt 0)
    = Ok PyNone /\
  _get_phase_value integrated_problem "traj" "cruise" "t" "min" (IdxInt 0)
    = Ok (Nd (Arr [Num 10%float])).
Proof.
  pose proof (get_phase_value_fallback_chain demo_problem "traj" "climb" "mass"
                "lbm" (IdxInt 0)) as (H1 & _).
  pose proof (get_phase_value_fallback_chain demo_problem "traj" "climb" "t"
                "min" (IdxInt 0)) as (_ & _ & H2).
  pose proof (get_phase_value_fallback_chain demo_problem "traj" "climb" "altitude"
                "ft" (IdxInt 0)) as (_ & _ & H3).
  pose proof (get_phase_value_fallback_chain integrated_problem "traj" "cruise" "t"
                "min" (IdxInt 0)) as (_ & _ & H4).
  split; [|split; [|split]].
  - apply H1. reflexivity.
  - apply H2; reflexivity.
  - apply H3; reflexivity.
  - destruct (H4 eq_refl) as (_ & Htime & _).
    etransitivity; [apply Htime; reflexivity | reflexivity].
Defined.

(** C1 as stated fails where the substituted read of the time is the one
    that finds no path: the time series of the mass is missing, the scalar
    read raises TypeError, the time series of time is missing, and the
    KeyError of that last read leaves [_get_phase_value] instead of None. *)
Lemma time_fallback_keyerror_propagates :
  get_val breguet_problem "traj.cruise.timeseries.mass" "lbm" (IdxInt 0)
    = Raise KeyError /\
  get_val breguet_problem "traj.cruise.mass" "lbm" (IdxInt 0) = Raise TypeError /\
  get_val breguet_problem "traj.cruise.timeseries.time" "lbm" (IdxInt 0)
    = Raise KeyError /\
  _get_phase_value breguet_problem "traj" "cruise" "mass" "lbm" (IdxInt 0)
    = Raise KeyError /\
  _get_phase_value breguet_problem "traj" "cruise" "mass" "lbm" (IdxInt 0)
    <> Ok PyNone.
Proof. repeat split; try reflexivity. discriminate. Qed.

(** ** Dictionaries *)

Lemma dict_get_set_eq {V : Type} (k : string) (v : V) (d : pydict V) :
  dict_get k (dict_set k v d) = Ok v.
Proof.
  induction d as [|[k' v'] d IH]; simpl.
  - rewrite String.eqb_refl. reflexivity.
  - destruct (String.eqb k k') eqn:E; simpl; rewrite E; [reflexivity | exact IH].
Qed.

Lemma dict_get_set_ne {V : Type} (k k' : string) (v : V) (d : pydict V) :
  k <> k' -> dict_get k' (dict_set k v d) = dict_get k' d.
Proof.
  intros Hne. induction d as [|[k0 v0] d IH]; simpl.
  - destruct (String.eqb k' k) eqn:E; [|reflexivity].
    apply String.eqb_eq in E. congruence.
  - destruct (String.eqb k k0) eqn:E; simpl.
    + apply String.eqb_eq in E. subst k0.
      destruct (String.eqb k' k) eqn:E'; [|reflexivity].
      apply String.eqb_eq in E'. congruence.
    + rewrite IH. reflexivity.
Qed.

Lemma dict_set_fresh {V : Type} (k : string) (v : V) (d : pydict V) :
  k ∉ dict_keys d -> dict_set k v d = (d ++ [(k, v)])%list.
Proof.
  induction d as [|[k' v'] d IH]; simpl; intros Hk; [reflexivity|].
  apply not_elem_of_cons in Hk as [Hne Hk].
  destruct (String.eqb k k') eqn:E.
  - apply String.eqb_eq in E. congruence.
  - rewrite IH by exact Hk. reflexivity.
Qed.

Lemma dict_keys_set {V : Type} (k : string) (v : V) (d : pydict V) :
  dict_keys (dict_set k v d)
  = if bool_decide (k ∈ dict_keys d) then dict_keys d else (dict_keys d ++ [k])%list.
Proof.
  induction d as [|[k' v'] d IH]; simpl.
  - reflexivity.
  - destruct (String.eqb k k') eqn:E; simpl.
    + apply String.eqb_eq in E. subst k'.
      rewrite bool_decide_eq_true_2 by (left). reflexivity.
    + apply String.eqb_neq in E. unfold dict_keys in *. rewrite IH.
      destruct (bool_decide (k ∈ map fst d)) eqn:Hd.
      * apply bool_decide_eq_true in Hd.
        rewrite bool_decide_eq_true_2 by (right; exact Hd). reflexivity.
      * apply bool_decide_eq_false in Hd.
        rewrite bool_decide_eq_false_2; [reflexivity|].
        intros [?|?]%elem_of_cons; congruence.
Qed.

(** ** Values of a problem backed by a store *)

Lemma getitem_raise (a : ndarray) (i : Z) (e : exn) :
  getitem a i = Raise e -> e = IndexError.
Proof. unfold getitem. intros H. repeat case_match; congruence. Qed.

Lemma mapM_raise {A B : Type} (f : A -> result B) (P : exn -> Prop) (l : list A) (e : exn) :
  (forall x e', f x = Raise e' -> P e') -> mapM f l = Raise e -> P e.
Proof.
  intros Hf. induction l as [|x l IH]; cbn [mapM]; [discriminate|].
  destruct (f x) as [y|e'] eqn:Hx; simpl.
  - destruct (mapM f l) as [ys|e'']; simpl; [discriminate|].
    intros H. injection H as <-. apply IH. reflexivity.
  - intros H. injection H as <-. eapply Hf, Hx.
Qed.

(** Indexing raises nothing but IndexError. *)
Lemma numpy_index_raise (a : ndarray) (idx : indices) (e : exn) :
  numpy_index a idx = Raise e -> e = IndexError.
Proof.
  destruct idx as [|i|l]; simpl.
  - discriminate.
  - apply getitem_raise.
  - destruct a as [x|items]; [congruence|].
    destruct (mapM (getitem (Arr items)) l) as [ys|e0] eqn:Hm; simpl; [discriminate|].
    intros H. injection H as <-.
    eapply (mapM_raise _ (fun e => e = IndexError)), Hm.
    intros x e1. apply getitem_raise.
Qed.

Lemma store_get_val_ok_or (vars : string -> string -> result ndarray)
    (p units : string) (idx : indices) :
  store_get_val vars p units idx
  = match vars p units with
    | Ok a => numpy_index a idx
    | Raise e => Raise e
    end.
Proof. reflexivity. Qed.

Lemma store_phase_value (vars : string -> string -> result ndarray)
    (phases : list string) (dir : path) (subs : pydict SubsystemBuilder)
    (traj phase var_name units : string) (idx : indices) :
  _get_phase_value (store_problem vars phases dir subs) traj phase var_name units idx
  = (o <- resolve vars traj phase var_name units ;;
     match o with
     | Some a => rmap Nd (numpy_index a idx)
     | None => Ok PyNone
     end).
Proof.
  unfold _get_phase_value, resolve. cbn [store_problem prob_data get_val].
  rewrite !store_get_val_ok_or.
  destruct (vars _ units) as [a|e]; cbn [rbind].
  - destruct (numpy_index a idx) as [v|e] eqn:Hi; [reflexivity|].
    apply numpy_index_raise in Hi as ->. reflexivity.
  - destruct e; try reflexivity.
    destruct (vars _ units) as [a|e]; cbn [rbind].
    + destruct (numpy_index a idx) as [v|e] eqn:Hi; [reflexivity|].
      apply numpy_index_raise in Hi as ->. reflexivity.
    + destruct e; try reflexivity.
      destruct (vars _ units) as [a|e]; reflexivity.
Qed.

(** ** The phase loop *)

(** One iteration, as the reads it performs. *)
Lemma phase_step_eq (prob : ProblemData) (idx : nat) (phase : string) (st : locals) :
  phase_step prob idx phase st
  = (v <- phase_deltas prob phase ;;
     st1 <- (if Nat.eqb idx 0
             then iv <- end_values prob phase 0 ;; Ok (bind_initial st iv)
             else Ok st) ;;
     fv <- end_values prob phase (-1) ;;
     Ok (bind_final phase v st1 fv)).
Proof.
  unfold phase_step, phase_deltas, end_values.
  destruct (_get_phase_diff prob "traj" phase "mass" "lbm" _); cbn [rbind]; [|reflexivity].
  destruct (_get_phase_diff prob "traj" phase "t" "min" _); cbn [rbind]; [|reflexivity].
  destruct (_get_phase_diff prob "traj" phase "distance" "nmi" _); cbn [rbind]; [|reflexivity].
  destruct (Nat.eqb idx 0).
  - destruct (_get_phase_value prob "traj" phase "mass" "lbm" (IdxInt 0)) as [m|]; cbn [rbind]; [|reflexivity].
    destruct (py_getitem m 0); cbn [rbind]; [|reflexivity].
    destruct (_get_phase_value prob "traj" phase "t" "min" (IdxInt 0)); cbn [rbind]; [|reflexivity].
    destruct (_get_phase_value prob "traj" phase "distance" "nmi" (IdxInt 0)) as [r|]; cbn [rbind]; [|reflexivity].
    destruct (py_getitem r 0); cbn [rbind]; [|reflexivity].
    destruct (_get_phase_value prob "traj" phase "mass" "lbm" (IdxInt (-1))) as [m'|]; cbn [rbind]; [|reflexivity].
    destruct (py_getitem m' 0); cbn [rbind]; [|reflexivity].
    destruct (_get_phase_value prob "traj" phase "t" "min" (IdxInt (-1))); cbn [rbind]; [|reflexivity].
    destruct (_get_phase_value prob "traj" phase "distance" "nmi" (IdxInt (-1))) as [r'|]; cbn [rbind]; [|reflexivity].
    destruct (py_getitem r' 0); reflexivity.
  - cbn [rbind].
    destruct (_get_phase_value prob "traj" phase "mass" "lbm" (IdxInt (-1))) as [m'|]; cbn [rbind]; [|reflexivity].
    destruct (py_getitem m' 0); cbn [rbind]; [|reflexivity].
    destruct (_get_phase_value prob "traj" phase "t" "min" (IdxInt (-1))); cbn [rbind]; [|reflexivity].
    destruct (_get_phase_value prob "traj" phase "distance" "nmi" (IdxInt (-1))) as [r'|]; cbn [rbind]; [|reflexivity].
    destruct (py_getitem r' 0); reflexivity.
Qed.

Lemma dict_set_map (k : string) (v : pyval * pyval * pyval)
    (segs : pydict (pyval * pyval * pyval)) :
  dict_set k (phase_table v) (map data_entry segs) = map data_entry (dict_set k v segs).
Proof.
  induction segs as [|[k' v'] segs IH]; simpl; [reflexivity|].
  destruct (String.eqb k k'); simpl; [reflexivity|].
  rewrite IH. reflexivity.
Qed.

(** After the iterations from a non-zero index the initial values are the
    ones bound before. *)
Lemma phase_loop_initial_keep (prob : ProblemData) (phases : list string) :
  forall (idx : nat) (st st' : locals),
    idx <> 0%nat ->
    phase_loop prob idx phases st = Ok st' ->
    initial_mass st' = initial_mass st /\
    initial_time st' = initial_time st /\
    initial_range st' = initial_range st.
Proof.
  induction phases as [|p rest IH]; intros idx st st' Hidx H; simpl in H.
  - injection H as <-. auto.
  - rewrite phase_step_eq in H.
    apply Nat.eqb_neq in Hidx as Hb. rewrite Hb in H. inv_ok.
    apply IH in H; [|lia]. subst. exact H.
Qed.

Lemma last_cons_default {A : Type} (l : list A) :
  forall (a d : A), List.last (a :: l) d = List.last l a.
Proof.
  induction l as [|b l IH]; intros a d; [reflexivity|].
  change (List.last (a :: b :: l) d) with (List.last (b :: l) d).
  rewrite !IH. reflexivity.
Qed.

(** After at least one iteration the final values are the ones read at
    index -1 of the last phase. *)
Lemma phase_loop_final (prob : ProblemData) (rest : list string) :
  forall (p : string) (idx : nat) (st st' : locals),
    phase_loop prob idx (p :: rest) st = Ok st' ->
    exists fv, end_values prob (List.last rest p) (-1) = Ok fv /\
      final_mass st' = Some (fst (fst fv)) /\
      final_time st' = Some (snd (fst fv)) /\
      final_range st' = Some (snd fv).
Proof.
  induction rest as [|q rest IH]; intros p idx st st' H.
  - simpl in H. apply rbind_ok in H as (st1 & H1 & H). injection H as <-.
    rewrite phase_step_eq in H1.
    apply rbind_ok in H1 as (v & _ & H1).
    apply rbind_ok in H1 as (st0 & _ & H1).
    apply rbind_ok in H1 as (fv & Hfv & H1). injection H1 as <-.
    exists fv. simpl. auto.
  - cbn [phase_loop] in H. apply rbind_ok in H as (st1 & _ & H).
    apply IH in H. rewrite last_cons_default. exact H.
Qed.

(** The first iteration binds the initial values read at index 0 of the
    first phase. *)
Lemma phase_loop_initial (prob : ProblemData) (p : string) (rest : list string)
    (st st' : locals) :
  phase_loop prob 0 (p :: rest) st = Ok st' ->
  exists iv, end_values prob p 0 = Ok iv /\
    initial_mass st' = Some (fst (fst iv)) /\
    initial_time st' = Some (snd (fst iv)) /\
    initial_range st' = Some (snd iv).
Proof.
  intros H. cbn [phase_loop] in H. apply rbind_ok in H as (st1 & H1 & H).
  apply phase_loop_initial_keep in H as (-> & -> & ->); [|lia].
  rewrite phase_step_eq in H1. cbn [Nat.eqb] in H1.
  apply rbind_ok in H1 as (v & _ & H1).
  apply rbind_ok in H1 as (st0 & H0 & H1).
  apply rbind_ok in H0 as (iv & Hiv & H0). injection H0 as <-.
  apply rbind_ok in H1 as (fv & _ & H1). injection H1 as <-.
  exists iv. simpl. auto.
Qed.

(** The loop stores, for every phase in turn, the table of its deltas. *)
Lemma phase_loop_data (prob : ProblemData) (phases : list string) :
  forall (idx : nat) (st st' : locals) (segs : pydict (pyval * pyval * pyval)),
    data st = map data_entry segs ->
    phase_loop prob idx phases st = Ok st' ->
    exists vs, mapM (phase_deltas prob) phases = Ok vs /\
      data st' = map data_entry (collect segs (zip phases vs)).
Proof.
  induction phases as [|p rest IH]; intros idx st st' segs Hd H.
  - simpl in H. injection H as <-. exists []. split; [reflexivity|]. exact Hd.
  - cbn [phase_loop] in H. apply rbind_ok in H as (st1 & H1 & H).
    rewrite phase_step_eq in H1.
    apply rbind_ok in H1 as (v & Hv & H1).
    apply rbind_ok in H1 as (st0 & H0 & H1).
    apply rbind_ok in H1 as (fv & Hfv & H1). injection H1 as <-.
    assert (data st0 = data st) as Hst0.
    { destruct (Nat.eqb idx 0); inv_ok; subst; reflexivity. }
    apply (IH _ _ _ (dict_set p v segs)) in H.
    + destruct H as (vs & Hvs & Hdata). exists (v :: vs). split.
      * cbn [mapM]. rewrite Hv. cbn [rbind]. rewrite Hvs. reflexivity.
      * exact Hdata.
    + simpl. rewrite Hst0, Hd. apply dict_set_map.
Qed.

Lemma mapM_length {A B : Type} (f : A -> result B) (l : list A) (l' : list B) :
  mapM f l = Ok l' -> length l' = length l.
Proof.
  revert l'. induction l as [|x l IH]; intros l' H; cbn [mapM] in H.
  - injection H as <-. reflexivity.
  - inv_ok. subst. simpl. f_equal. apply IH. assumption.
Qed.

Lemma collect_keys_subset (pvs : list (string * (pyval * pyval * pyval))) :
  forall segs k, k ∈ dict_keys (collect segs pvs) ->
    k ∈ dict_keys segs \/ k ∈ map fst pvs.
Proof.
  induction pvs as [|[p v] pvs IH]; intros segs k Hk; simpl in *; [auto|].
  apply IH in Hk as [Hk|Hk]; [|right; right; exact Hk].
  rewrite dict_keys_set in Hk. case_bool_decide; [auto|].
  apply elem_of_app in Hk as [Hk|Hk]; [auto|].
  apply list_elem_of_singleton in Hk as ->. right. left.
Qed.

(** Distinct new keys are appended in order. *)
Lemma collect_fresh (pvs : list (string * (pyval * pyval * pyval))) :
  forall segs,
    NoDup (map fst pvs) ->
    (forall k, k ∈ map fst pvs -> k ∉ dict_keys segs) ->
    collect segs pvs = (segs ++ pvs)%list.
Proof.
  unfold collect.
  induction pvs as [|[p v] pvs IH]; intros segs Hnd Hfresh; simpl.
  - rewrite app_nil_r. reflexivity.
  - simpl in Hnd. apply NoDup_cons in Hnd as [Hp Hnd].
    rewrite dict_set_fresh by (apply Hfresh; left).
    rewrite IH.
    + rewrite <- app_assoc. reflexivity.
    + exact Hnd.
    + intros k Hk. unfold dict_keys. rewrite map_app. simpl.
      intros [Hin|Hin]%elem_of_app.
      * eapply Hfresh; [right; exact Hk | exact Hin].
      * apply list_elem_of_singleton in Hin as ->. apply Hp. exact Hk.
Qed.

Lemma dict_set_keys_NoDup {V : Type} (k : string) (v : V) (d : pydict V) :
  NoDup (dict_keys d) -> NoDup (dict_keys (dict_set k v d)).
Proof.
  intros Hd. rewrite dict_keys_set. case_bool_decide; [exact Hd|].
  apply NoDup_app. repeat split; [exact Hd | | apply NoDup_singleton].
  intros x Hx ->%list_elem_of_singleton. auto.
Qed.

Lemma collect_keys_NoDup (pvs : list (string * (pyval * pyval * pyval))) :
  forall segs, NoDup (dict_keys segs) -> NoDup (dict_keys (collect segs pvs)).
Proof.
  induction pvs as [|[p v] pvs IH]; intros segs Hd; simpl; [exact Hd|].
  apply IH, dict_set_keys_NoDup, Hd.
Qed.

(** ** Writing the report *)

Lemma emit_ok (f : path) (ch : chunk) (c : list chunk) (s : fs) :
  s !! f = Some (File c) -> emit f ch s = (Ok tt, <[f := File (c ++ [ch])%list]> s).
Proof. intros H. unfold emit. rewrite H. reflexivity. Qed.

Lemma write_table_run (f : path) (table : NamedValues) (outputs : list string)
    (metadata : pydict (pydict string)) (c : list chunk) (s : fs) :
  s !! f = Some (File c) ->
  write_markdown_variable_table f table outputs metadata s
  = match table_chunk table outputs metadata with
    | Ok ch => (Ok tt, <[f := File (c ++ [ch])%list]> s)
    | Raise e => (Raise e, s)
    end.
Proof.
  intros H. unfold write_markdown_variable_table, table_chunk, io_bind, io_lift.
  destruct (mapM _ outputs) as [rows|e]; simpl; [|reflexivity].
  apply emit_ok, H.
Qed.

Lemma write_segments_cons (f : path) (data : pydict NamedValues) (k : string)
    (keys : list string) (s : fs) (c : list chunk) :
  s !! f = Some (File c) ->
  let c1 := (c ++ [Text (nl +:+ "## " +:+ k)])%list in
  let s1 := <[f := File c1]> s in
  write_segments f data (k :: keys) s
  = match dict_get k data with
    | Ok table =>
        match table_chunk table phase_outputs phase_metadata with
        | Ok ch => write_segments f data keys (<[f := File (c1 ++ [ch])%list]> s1)
        | Raise e => (Raise e, s1)
        end
    | Raise e => (Raise e, s1)
    end.
Proof.
  intros Hf c1 s1. cbn [write_segments]. unfold io_bind, f_write, io_lift.
  rewrite (emit_ok _ _ _ _ Hf). fold c1 s1.
  destruct (dict_get k data) as [table|e]; [|reflexivity].
  rewrite (write_table_run _ _ _ _ c1) by apply lookup_insert_eq.
  destruct (table_chunk table phase_outputs phase_metadata); reflexivity.
Qed.

Lemma write_segments_run (f : path) (data : pydict NamedValues) (keys : list string) :
  forall (s : fs) (c : list chunk),
    s !! f = Some (File c) ->
    match mapM (segment_chunks data) keys with
    | Ok segs => write_segments f data keys s
                 = (Ok tt, <[f := File (c ++ concat segs)%list]> s)
    | Raise e => exists s', write_segments f data keys s = (Raise e, s')
    end.
Proof.
  induction keys as [|k keys IH]; intros s c Hf.
  - simpl. rewrite app_nil_r. unfold io_ret. rewrite insert_id by exact Hf. reflexivity.
  - rewrite (write_segments_cons _ _ _ _ _ _ Hf). cbn [mapM].
    unfold segment_chunks at 1.
    destruct (dict_get k data) as [table|e]; cbn [rbind]; [|eauto].
    destruct (table_chunk table phase_outputs phase_metadata) as [ch|e];
      cbn [rbind]; [|eauto].
    match goal with
    | |- context [write_segments f data keys ?s2] =>
        specialize (IH s2 _ (lookup_insert_eq _ _ _))
    end.
    destruct (mapM (segment_chunks data) keys) as [segs|e]; cbn [rbind].
    + rewrite IH. f_equal. rewrite !insert_insert_eq.
      do 2 f_equal. simpl. rewrite <- !app_assoc. reflexivity.
    + exact IH.
Qed.

Lemma write_body_eq (f : path) (totals : NamedValues) (data : pydict NamedValues)
    (s : fs) (c : list chunk) :
  s !! f = Some (File c) ->
  let c1 := (c ++ [Text "# MISSION SUMMARY"])%list in
  let s1 := <[f := File c1]> s in
  write_body f totals data s
  = match table_chunk totals totals_outputs totals_metadata with
    | Ok ch =>
        write_segments f data (dict_keys data)
          (<[f := File ((c1 ++ [ch]) ++ [Text (nl +:+ "# MISSION SEGMENTS")])%list]>
             (<[f := File (c1 ++ [ch])%list]> s1))
    | Raise e => (Raise e, s1)
    end.
Proof.
  intros Hf c1 s1. unfold write_body, io_bind, f_write.
  rewrite (emit_ok _ _ _ _ Hf). fold c1 s1.
  rewrite (write_table_run _ _ _ _ c1) by apply lookup_insert_eq.
  destruct (table_chunk totals totals_outputs totals_metadata) as [ch|e];
    [|reflexivity].
  rewrite (emit_ok _ _ (c1 ++ [ch])) by apply lookup_insert_eq. reflexivity.
Qed.

Lemma write_body_run (f : path) (totals : NamedValues) (data : pydict NamedValues)
    (s : fs) (c : list chunk) :
  s !! f = Some (File c) ->
  match render_document totals data with
  | Ok doc => write_body f totals data s = (Ok tt, <[f := File (c ++ doc)%list]> s)
  | Raise e => exists s', write_body f totals data s = (Raise e, s')
  end.
Proof.
  intros Hf. rewrite (write_body_eq _ _ _ _ _ Hf). unfold render_document.
  destruct (table_chunk totals totals_outputs totals_metadata) as [ch|e];
    cbn [rbind]; [|eauto].
  match goal with
  | |- context [write_segments f data (dict_keys data) ?s3] =>
      pose proof (write_segments_run f data (dict_keys data) s3 _
                    (lookup_insert_eq _ _ _)) as Hw
  end.
  destruct (mapM (segment_chunks data) (dict_keys data)) as [segs|e]; cbn [rbind].
  - rewrite Hw. f_equal. rewrite !insert_insert_eq.
    do 2 f_equal. simpl. rewrite <- !app_assoc. reflexivity.
  - exact Hw.
Qed.

Lemma parent_path_join (folder : path) (name : string) :
  parent (path_join folder name) = folder.
Proof. unfold parent, path_join. apply removelast_last. Qed.

Lemma open_w_ok (p f : path) (s s1 : fs) :
  open_w p s = (Ok f, s1) ->
  f = p /\ s !! p <> Some Dir /\ s !! parent p = Some Dir /\ s1 = <[p := File []]> s.
Proof.
  unfold open_w.
  destruct (s !! p) as [[|c]|]; destruct (s !! parent p) as [[|c']|];
    intros H; try discriminate; injection H as <- <-; repeat split; congruence.
Qed.

Lemma open_w_run (p : path) (s : fs) :
  s !! p <> Some Dir -> s !! parent p = Some Dir ->
  open_w p s = (Ok p, <[p := File []]> s).
Proof.
  intros Hnd Hp. unfold open_w. rewrite Hp.
  destruct (s !! p) as [[|c]|]; congruence.
Qed.

Lemma open_w_raise (p : path) (s s1 : fs) (e : exn) :
  open_w p s = (Raise e, s1) -> s1 = s.
Proof.
  unfold open_w.
  destruct (s !! p) as [[|c]|]; destruct (s !! parent p) as [[|c']|];
    intros H; try discriminate; injection H as _ <-; reflexivity.
Qed.

(** A failure while the tables are computed leaves the file system as it
    was. *)
Lemma mission_report_raise (prob : AviaryProblem) (kw : kwargs) (s : fs) (e : exn) :
  mission_tables prob = Raise e -> mission_report prob kw s = (Raise e, s).
Proof. intros H. unfold mission_report, io_bind, io_lift. rewrite H. reflexivity. Qed.

(** A successful run: the tables were computed, the file could be opened,
    and it holds exactly the rendered document. *)
Lemma mission_report_ok (prob : AviaryProblem) (kw : kwargs) (s s' : fs) :
  mission_report prob kw s = (Ok tt, s') ->
  exists totals data doc,
    mission_tables prob = Ok (totals, data) /\
    render_document totals data = Ok doc /\
    s !! report_file prob <> Some Dir /\
    s !! get_reports_dir prob = Some Dir /\
    s' = <[report_file prob := File doc]> s.
Proof.
  unfold mission_report. fold (report_file prob).
  unfold io_bind at 1. unfold io_lift.
  destruct (mission_tables prob) as [[totals data]|e]; [|discriminate].
  cbn [fst snd]. unfold io_bind at 1.
  change (f_write ?f "# MISSION SUMMARY" ;;; _)%io with (write_body f totals data).
  intros H. exists totals, data.
  destruct (open_w (report_file prob) s) as [[f|e] s1] eqn:Ho; [|discriminate].
  apply open_w_ok in Ho as (-> & Hnd & Hp & ->).
  unfold report_file in Hp. rewrite parent_path_join in Hp.
  pose proof (write_body_run (report_file prob) totals data
                (<[report_file prob := File []]> s) [] (lookup_insert_eq _ _ _)) as Hw.
  destruct (render_document totals data) as [doc|e].
  - exists doc. rewrite Hw in H. injection H as <-.
    rewrite insert_insert_eq. auto.
  - destruct Hw as (s1 & Hw). rewrite Hw in H. discriminate.
Qed.

(** Conversely, when the tables are computed and rendered and the file can
    be opened, the report is written. *)
Lemma mission_report_written (prob : AviaryProblem) (kw : kwargs) (s : fs)
    (totals : NamedValues) (data : pydict NamedValues) (doc : list chunk) :
  mission_tables prob = Ok (totals, data) ->
  render_document totals data = Ok doc ->
  s !! report_file prob <> Some Dir ->
  s !! get_reports_dir prob = Some Dir ->
  mission_report prob kw s = (Ok tt, <[report_file prob := File doc]> s).
Proof.
  intros Ht Hr Hnd Hp. unfold mission_report. fold (report_file prob).
  unfold io_bind at 1. unfold io_lift. rewrite Ht. cbn [fst snd].
  unfold io_bind at 1.
  change (f_write ?f "# MISSION SUMMARY" ;;; _)%io with (write_body f totals data).
  assert (open_w (report_file prob) s
          = (Ok (report_file prob), <[report_file prob := File []]> s)) as ->.
  { apply open_w_run; [exact Hnd|].
    unfold report_file. rewrite parent_path_join. exact Hp. }
  pose proof (write_body_run (report_file prob) totals data
                (<[report_file prob := File []]> s) [] (lookup_insert_eq _ _ _)) as Hw.
  rewrite Hr in Hw. rewrite Hw, insert_insert_eq. reflexivity.
Qed.

(** ** The computed tables *)

Lemma mission_totals_ok (st : locals) (totals : NamedValues) :
  mission_totals st = Ok totals ->
  exists m0 t0 r0 m1 t1 r1 burn dt dr,
    initial_mass st = Some m0 /\ initial_time st = Some t0 /\
    initial_range st = Some r0 /\ final_mass st = Some m1 /\
    final_time st = Some t1 /\ final_range st = Some r1 /\
    py_sub m0 m1 = Ok burn /\ py_sub t1 t0 = Ok dt /\ py_sub r1 r0 = Ok dr /\
    totals = totals_table burn dt dr.
Proof.
  unfold mission_totals, read_local. intros H.
  destruct (initial_mass st) as [m0|]; [|discriminate].
  destruct (final_mass st) as [m1|]; [|discriminate]. cbn [rbind] in H.
  apply rbind_ok in H as (burn & Hb & H).
  destruct (final_time st) as [t1|]; [|discriminate].
  destruct (initial_time st) as [t0|]; [|discriminate]. cbn [rbind] in H.
  apply rbind_ok in H as (dt & Hdt & H).
  destruct (final_range st) as [r1|]; [|discriminate].
  destruct (initial_range st) as [r0|]; [|discriminate]. cbn [rbind] in H.
  apply rbind_ok in H as (dr & Hdr & H). injection H as <-.
  exists m0, t0, r0, m1, t1, r1, burn, dt, dr. repeat split; assumption.
Qed.

(** The tables of a mission with at least one phase. *)
Lemma mission_tables_ok (prob : ProblemData) (first : string) (rest : list string)
    (totals : NamedValues) (dat : pydict NamedValues) :
  phase_info prob = first :: rest ->
  mission_tables prob = Ok (totals, dat) ->
  exists iv fv vs burn dt dr,
    end_values prob first 0 = Ok iv /\
    end_values prob (List.last rest first) (-1) = Ok fv /\
    mapM (phase_deltas prob) (first :: rest) = Ok vs /\
    py_sub (fst (fst iv)) (fst (fst fv)) = Ok burn /\
    py_sub (snd (fst fv)) (snd (fst iv)) = Ok dt /\
    py_sub (snd fv) (snd iv) = Ok dr /\
    totals = totals_table burn dt dr /\
    dat = map data_entry (collect [] (zip (first :: rest) vs)).
Proof.
  intros Hp H. unfold mission_tables in H. rewrite Hp in H.
  apply rbind_ok in H as (st & Hloop & H).
  apply rbind_ok in H as (tot & Htot & H). injection H as <- <-.
  destruct (phase_loop_initial _ _ _ _ _ Hloop) as (iv & Hiv & Hi1 & Hi2 & Hi3).
  destruct (phase_loop_final _ _ _ _ _ _ Hloop) as (fv & Hfv & Hf1 & Hf2 & Hf3).
  destruct (phase_loop_data prob (first :: rest) 0 locals0 st [] eq_refl Hloop)
    as (vs & Hvs & Hd).
  apply mission_totals_ok in Htot
    as (m0 & t0 & r0 & m1 & t1 & r1 & burn & dt & dr & Hm0 & Ht0 & Hr0 & Hm1 & Ht1
        & Hr1 & Hb & Hdt & Hdr & ->).
  exists iv, fv, vs, burn, dt, dr.
  assert (m0 = fst (fst iv)) as <- by congruence.
  assert (t0 = snd (fst iv)) as <- by congruence.
  assert (r0 = snd iv) as <- by congruence.
  assert (m1 = fst (fst fv)) as <- by congruence.
  assert (t1 = snd (fst fv)) as <- by congruence.
  assert (r1 = snd fv) as <- by congruence.
  repeat split; assumption.
Qed.

(** ** Rendering the tables *)

Lemma dict_get_NoDup {V : Type} (k : string) (v : V) (d : pydict V) :
  NoDup (dict_keys d) -> (k, v) ∈ d -> dict_get k d = Ok v.
Proof.
  induction d as [|[k' v'] d IH]; simpl; intros Hnd Hin.
  - apply elem_of_nil in Hin. contradiction.
  - apply NoDup_cons in Hnd as [Hk' Hnd].
    apply elem_of_cons in Hin as [Heq|Hin].
    + injection Heq as <- <-. rewrite String.eqb_refl. reflexivity.
    + destruct (String.eqb k k') eqn:E.
      * apply String.eqb_eq in E. subst k'. exfalso. apply Hk'.
        apply list_elem_of_fmap. exists (k, v). auto.
      * apply IH; assumption.
Qed.

Lemma table_chunk_totals (burn dt dr : pyval) :
  table_chunk (totals_table burn dt dr) totals_outputs totals_metadata
  = Ok (Table (totals_rows burn dt dr)).
Proof. reflexivity. Qed.

Lemma table_chunk_phase (v : pyval * pyval * pyval) :
  table_chunk (phase_table v) phase_outputs phase_metadata = Ok (Table (phase_rows v)).
Proof. reflexivity. Qed.

Lemma dict_keys_data_entry (segs : pydict (pyval * pyval * pyval)) :
  dict_keys (map data_entry segs) = dict_keys segs.
Proof. unfold dict_keys. rewrite map_map. reflexivity. Qed.

Lemma segment_chunks_run (segs : pydict (pyval * pyval * pyval)) :
  NoDup (dict_keys segs) ->
  forall sub, sub ⊆ segs ->
    mapM (segment_chunks (map data_entry segs)) (dict_keys sub)
    = Ok (map (fun s => segment (fst s) (snd s)) sub).
Proof.
  intros Hnd. induction sub as [|[k v] sub IH]; intros Hsub; [reflexivity|].
  unfold dict_keys in *. cbn [map fst mapM]. unfold segment_chunks at 1.
  rewrite (dict_get_NoDup k (phase_table v)).
  - cbn [rbind]. rewrite table_chunk_phase. cbn [rbind].
    rewrite IH; [reflexivity|].
    intros x Hx. apply Hsub. right. exact Hx.
  - rewrite dict_keys_data_entry. exact Hnd.
  - apply (list_elem_of_fmap_2 data_entry _ (k, v)). apply Hsub. left.
Qed.

(** Tables as the loop builds them render to the document of the spec. *)
Lemma render_tables (burn dt dr : pyval) (segs : pydict (pyval * pyval * pyval)) :
  NoDup (dict_keys segs) ->
  render_document (totals_table burn dt dr) (map data_entry segs)
  = Ok (summary_document burn dt dr segs).
Proof.
  intros Hnd. unfold render_document. rewrite table_chunk_totals. cbn [rbind].
  rewrite dict_keys_data_entry, (segment_chunks_run segs Hnd segs) by reflexivity.
  reflexivity.
Qed.

(** Without phases the totals read names the loop never bound. *)
Lemma mission_tables_empty (prob : ProblemData) :
  phase_info prob = [] -> mission_tables prob = Raise UnboundLocalError.
Proof. intros H. unfold mission_tables. rewrite H. reflexivity. Qed.

Lemma zip_fst_snd {A B : Type} (l : list A) (l' : list B) :
  length l' = length l ->
  map fst (zip l l') = l /\ map snd (zip l l') = l'.
Proof.
  revert l'. induction l as [|x l IH]; intros [|y l'] Hlen; try discriminate.
  - auto.
  - simpl in *. destruct (IH l') as [-> ->]; [lia|]. auto.
Qed.

(** A successful report on a mission with phases: what was read, and the
    document that was written. *)
Lemma mission_report_summary (prob : AviaryProblem) (kw : kwargs) (s s' : fs)
    (first : string) (rest : list string) :
  phase_info prob = first :: rest ->
  mission_report prob kw s = (Ok tt, s') ->
  exists iv fv vs burn dt dr,
    end_values prob first 0 = Ok iv /\
    end_values prob (List.last rest first) (-1) = Ok fv /\
    mapM (phase_deltas prob) (first :: rest) = Ok vs /\
    py_sub (fst (fst iv)) (fst (fst fv)) = Ok burn /\
    py_sub (snd (fst fv)) (snd (fst iv)) = Ok dt /\
    py_sub (snd fv) (snd iv) = Ok dr /\
    s' = <[report_file prob :=
             File (summary_document burn dt dr (collect [] (zip (first :: rest) vs)))]> s.
Proof.
  intros Hp H.
  apply mission_report_ok in H as (totals & dat & doc & Ht & Hr & _ & _ & ->).
  destruct (mission_tables_ok _ _ _ _ _ Hp Ht)
    as (iv & fv & vs & burn & dt & dr & Hiv & Hfv & Hvs & Hb & Hdt & Hdr & -> & ->).
  rewrite render_tables in Hr by (apply collect_keys_NoDup, NoDup_nil_2).
  injection Hr as <-.
  exists iv, fv, vs, burn, dt, dr. repeat split; assumption.
Qed.

(** ** C2: the mission totals *)

(** C2.  For a non-empty phase sequence, a report that is written has its
    totals computed from the values read at index 0 of the first phase and
    the values read at index -1 of the last phase: Total Fuel Burn is
    initial mass minus final mass, Total Time is final time minus initial
    time, Total Ground Distance is final distance minus initial distance.
    On numbers each total is the floating-point difference in that order, so
    the fuel burn is positive when the mass decreases; a time read as a
    one-item array gives the one-item array of the difference. *)
Theorem mission_totals_first_last (prob : AviaryProblem) (kw : kwargs) (s s' : fs)
    (first : string) (rest : list string) :
  phase_info prob = first :: rest ->
  mission_report prob kw s = (Ok tt, s') ->
  exists m0 t0 r0 m1 t1 r1 burn dt dr segs,
    end_values prob first 0 = Ok (m0, t0, r0) /\
    end_values prob (List.last rest first) (-1) = Ok (m1, t1, r1) /\
    py_sub m0 m1 = Ok burn /\
    py_sub t1 t0 = Ok dt /\
    py_sub r1 r0 = Ok dr /\
    s' !! report_file prob = Some (File (summary_document burn dt dr segs)) /\
    (forall a b, m0 = Nd (Num a) -> m1 = Nd (Num b) -> burn = Nd (Num (a - b)%float)) /\
    (forall a b, t0 = Nd (Num a) -> t1 = Nd (Num b) -> dt = Nd (Num (b - a)%float)) /\
    (forall a b, t0 = Nd (Arr [Num a]) -> t1 = Nd (Arr [Num b]) ->
       dt = Nd (Arr [Num (b - a)%float])) /\
    (forall a b, r0 = Nd (Num a) -> r1 = Nd (Num b) -> dr = Nd (Num (b - a)%float)).
Proof.
  intros Hp H.
  destruct (mission_report_summary _ _ _ _ _ _ Hp H)
    as ([[m0 t0] r0] & [[m1 t1] r1] & vs & burn & dt & dr
        & Hiv & Hfv & _ & Hb & Hdt & Hdr & ->).
  cbn [fst snd] in Hb, Hdt, Hdr.
  exists m0, t0, r0, m1, t1, r1, burn, dt, dr.
  eexists.
  split; [exact Hiv|]. split; [exact Hfv|]. split; [exact Hb|].
  split; [exact Hdt|]. split; [exact Hdr|]. split; [apply lookup_insert_eq|].
  split; [|split; [|split]].
  - intros a b Ha Hb'. rewrite Ha, Hb' in Hb. injection Hb as <-. reflexivity.
  - intros a b Ha Hb'. rewrite Ha, Hb' in Hdt. injection Hdt as <-. reflexivity.
  - intros a b Ha Hb'. rewrite Ha, Hb' in Hdt. injection Hdt as <-. reflexivity.
  - intros a b Ha Hb'. rewrite Ha, Hb' in Hdr. injection Hdr as <-. reflexivity.
Qed.

(** On the demonstration mission the mass goes from 1000 to 790, the time
    from 0 to 130 and the distance from 0 to 900: the totals written are 210,
    130 and 900. *)
Lemma mission_totals_first_last_witness :
  end_values demo_problem "climb" 0
    = Ok (Nd (Num 1000), Nd (Num 0), Nd (Num 0)) /\
  end_values demo_problem "descent" (-1)
    = Ok (Nd (Num 790), Nd (Num 130), Nd (Num 900)) /\
  exists segs,
    snd (mission_report demo_problem [] demo_fs) !! report_file demo_problem
    = Some (File (summary_document (Nd (Num 210)) (Nd (Num 130)) (Nd (Num 900)) segs)).
Proof.
  destruct (mission_totals_first_last demo_problem [] demo_fs
              (snd (mission_report demo_problem [] demo_fs))
              "climb" ["cruise"; "descent"] eq_refl eq_refl)
    as (m0 & t0 & r0 & m1 & t1 & r1 & burn & dt & dr & segs
        & Hiv & Hfv & _ & _ & _ & Hfile & Hburn & Hdt & _ & Hdr).
  assert (end_values demo_problem "climb" 0
          = Ok (Nd (Num 1000), Nd (Num 0), Nd (Num 0))) as Hiv' by reflexivity.
  assert (end_values demo_problem "descent" (-1)
          = Ok (Nd (Num 790), Nd (Num 130), Nd (Num 900))) as Hfv' by reflexivity.
  split; [exact Hiv'|]. split; [exact Hfv'|].
  cbn [List.last] in Hfv. rewrite Hiv' in Hiv. rewrite Hfv' in Hfv.
  injection Hiv as <- <- <-. injection Hfv as <- <- <-.
  rewrite (Hburn _ _ eq_refl eq_refl), (Hdt _ _ eq_refl eq_refl),
    (Hdr _ _ eq_refl eq_refl) in Hfile.
  exists segs. exact Hfile.
Defined.

(** The report of the demonstration mission. *)
Example demo_report_document :
  mission_report demo_problem [] demo_fs
  = (Ok tt,
     <[report_file demo_problem :=
         File (summary_document (Nd (Num 210)) (Nd (Num 130)) (Nd (Num 900))
                 [("climb", (Nd (Num 20), Nd (Num 10), Nd (Num 40)));
                  ("cruise", (Nd (Num 180), Nd (Num 100), Nd (Num 760)));
                  ("descent", (Nd (Num 10), Nd (Num 20), Nd (Num 100)))])]> demo_fs).
Proof.
  apply mission_report_written with
    (totals := totals_table (Nd (Num 210)) (Nd (Num 130)) (Nd (Num 900)))
    (data := map data_entry
               [("climb", (Nd (Num 20), Nd (Num 10), Nd (Num 40)));
                ("cruise", (Nd (Num 180), Nd (Num 100), Nd (Num 760)));
                ("descent", (Nd (Num 10), Nd (Num 20), Nd (Num 100)))]).
  - vm_compute. reflexivity.
  - vm_compute. reflexivity.
  - vm_compute. discriminate.
  - vm_compute. reflexivity.
Qed.

(** ** C6: the structure of the written document *)

(** C6.  A written mission summary consists of the MISSION SUMMARY heading
    and the totals table with the three rows Total Fuel Burn (lbm), Total
    Time (min), Total Ground Distance (nmi), followed by the MISSION SEGMENTS
    heading and one subsection per phase, in the order of [phase_info], each
    with the three rows Fuel Burn (lbm), Elapsed Time (min), Ground Distance
    (nmi) holding the deltas of that phase.  Phase names are the keys of
    [phase_info], hence distinct. *)
Theorem mission_document_structure (prob : AviaryProblem) (kw : kwargs) (s s' : fs) :
  NoDup (phase_info prob) ->
  mission_report prob kw s = (Ok tt, s') ->
  exists burn dt dr segs,
    map fst segs = phase_info prob /\
    mapM (phase_deltas prob) (phase_info prob) = Ok (map snd segs) /\
    s' !! report_file prob
    = Some (File ([Text "# MISSION SUMMARY";
                   Table [("Total Fuel Burn", burn, "lbm");
                          ("Total Time", dt, "min");
                          ("Total Ground Distance", dr, "nmi")];
                   Text (nl +:+ "# MISSION SEGMENTS")]
                  ++ concat (map (fun sg =>
                       [Text (nl +:+ "## " +:+ fst sg);
                        Table [("Fuel Burn", fst (fst (snd sg)), "lbm");
                               ("Elapsed Time", snd (fst (snd sg)), "min");
                               ("Ground Distance", snd (snd sg), "nmi")]]) segs))%list).
Proof.
  intros Hnd H.
  destruct (phase_info prob) as [|first rest] eqn:Hp.
  { rewrite (mission_report_raise prob kw s _ (mission_tables_empty prob Hp)) in H.
    discriminate. }
  destruct (mission_report_summary _ _ _ _ _ _ Hp H)
    as (iv & fv & vs & burn & dt & dr & _ & _ & Hvs & _ & _ & _ & ->).
  pose proof (mapM_length _ _ _ Hvs) as Hlen.
  destruct (zip_fst_snd (first :: rest) vs Hlen) as [Hfst Hsnd].
  exists burn, dt, dr, (zip (first :: rest) vs).
  rewrite Hfst, Hsnd. repeat split; [exact Hvs|].
  rewrite lookup_insert_eq. rewrite collect_fresh.
  - reflexivity.
  - rewrite Hfst. exact Hnd.
  - intros k _. apply not_elem_of_nil.
Qed.

Lemma mission_document_structure_witness :
  exists burn dt dr segs,
    map fst segs = ["climb"; "cruise"; "descent"] /\
    mapM (phase_deltas demo_problem) ["climb"; "cruise"; "descent"] = Ok (map snd segs) /\
    snd (mission_report demo_problem [] demo_fs) !! report_file demo_problem
    = Some (File ([Text "# MISSION SUMMARY";
                   Table [("Total Fuel Burn", burn, "lbm");
                          ("Total Time", dt, "min");
                          ("Total Ground Distance", dr, "nmi")];
                   Text (nl +:+ "# MISSION SEGMENTS")]
                  ++ concat (map (fun sg =>
                       [Text (nl +:+ "## " +:+ fst sg);
                        Table [("Fuel Burn", fst (fst (snd sg)), "lbm");
                               ("Elapsed Time", snd (fst (snd sg)), "min");
                               ("Ground Distance", snd (snd sg), "nmi")]]) segs))%list).
Proof.
  apply (mission_document_structure demo_problem [] demo_fs
           (snd (mission_report demo_problem [] demo_fs))).
  - apply (bool_decide_unpack _). vm_compute. exact I.
  - vm_compute. reflexivity.
Defined.

(** ** C7: units *)

Lemma totals_table_units (burn dt dr : pyval) :
  Forall entry_has_unit (totals_table burn dt dr).
Proof. repeat constructor; discriminate. Qed.

Lemma phase_table_units (v : pyval * pyval * pyval) :
  Forall entry_has_unit (phase_table v).
Proof. repeat constructor; discriminate. Qed.

Lemma summary_document_units (burn dt dr : pyval)
    (segs : pydict (pyval * pyval * pyval)) :
  Forall chunk_has_units (summary_document burn dt dr segs).
Proof.
  unfold summary_document. apply Forall_app. split.
  - repeat constructor; discriminate.
  - induction segs as [|sg segs IH]; simpl; [constructor|].
    constructor; [exact I|]. constructor; [|exact IH].
    repeat constructor; discriminate.
Qed.

(** C7.  Every entry the mission report places in a named value table, in
    the totals table and in the table of every phase, carries a non-empty
    unit that is the fixed unit of its metric (lbm for mass, min for time,
    nmi for distance), and so does every row of every table written to the
    report file. *)
Theorem report_entries_carry_units (prob : AviaryProblem) :
  (forall totals dat,
      mission_tables prob = Ok (totals, dat) ->
      Forall entry_has_unit totals /\
      Forall (fun kv => Forall entry_has_unit (snd kv)) dat) /\
  (forall kw s s',
      mission_report prob kw s = (Ok tt, s') ->
      exists doc, s' !! report_file prob = Some (File doc) /\
                  Forall chunk_has_units doc).
Proof.
  split.
  - intros totals dat Ht.
    destruct (phase_info prob) as [|first rest] eqn:Hp.
    { rewrite (mission_tables_empty prob Hp) in Ht. discriminate. }
    destruct (mission_tables_ok _ _ _ _ _ Hp Ht)
      as (iv & fv & vs & burn & dt & dr & _ & _ & _ & _ & _ & _ & -> & ->).
    split; [apply totals_table_units|].
    apply Forall_fmap, Forall_forall. intros sg _. apply phase_table_units.
  - intros kw s s' H.
    destruct (phase_info prob) as [|first rest] eqn:Hp.
    { rewrite (mission_report_raise prob kw s _ (mission_tables_empty prob Hp)) in H.
      discriminate. }
    destruct (mission_report_summary _ _ _ _ _ _ Hp H)
      as (iv & fv & vs & burn & dt & dr & _ & _ & _ & _ & _ & _ & ->).
    eexists. split; [apply lookup_insert_eq|]. apply summary_document_units.
Qed.

Lemma report_entries_carry_units_witness :
  (exists totals dat,
      mission_tables demo_problem = Ok (totals, dat) /\
      Forall entry_has_unit totals /\
      Forall (fun kv => Forall entry_has_unit (snd kv)) dat) /\
  (exists doc,
      snd (mission_report demo_problem [] demo_fs) !! report_file demo_problem
      = Some (File doc) /\
      Forall chunk_has_units doc).
Proof.
  destruct (report_entries_carry_units demo_problem) as [Htab Hdoc].
  split.
  - eexists _, _. split; [vm_compute; reflexivity|].
    apply Htab. vm_compute. reflexivity.
  - apply (Hdoc [] demo_fs). vm_compute. reflexivity.
Defined.

(** ** C10: a mission without phases *)

(** C10.  With an empty [phase_info] the report raises when the totals read
    the initial and final values, which only the loop binds; this is before
    the report file is opened, so the file system is left as it was and no
    report file is created. *)
Theorem mission_report_no_phases (prob : AviaryProblem) (kw : kwargs) (s : fs) :
  phase_info prob = [] ->
  mission_report prob kw s = (Raise UnboundLocalError, s) /\
  snd (mission_report prob kw s) !! report_file prob = s !! report_file prob.
Proof.
  intros Hp.
  rewrite (mission_report_raise prob kw s _ (mission_tables_empty prob Hp)).
  split; reflexivity.
Qed.

Lemma mission_report_no_phases_witness :
  mission_report empty_problem [] demo_fs = (Raise UnboundLocalError, demo_fs) /\
  snd (mission_report empty_problem [] demo_fs) !! report_file empty_problem
  = demo_fs !! report_file empty_problem.
Proof. apply (mission_report_no_phases empty_problem [] demo_fs). reflexivity. Defined.

(** On the demonstration file system the report file does not exist before
    the call and does not exist after it. *)
Example no_phases_no_file :
  demo_fs !! report_file empty_problem = None /\
  snd (mission_report empty_problem [] demo_fs) !! report_file empty_problem = None.
Proof. split; vm_compute; reflexivity. Qed.

(** ** C9: determinism *)

Section SameAnswers.

Variables p1 p2 : ProblemData.
Hypothesis same_val : forall p units idx, get_val p1 p units idx = get_val p2 p units idx.

Lemma get_phase_value_same (traj phase var_name units : string) (idx : indices) :
  _get_phase_value p1 traj phase var_name units idx
  = _get_phase_value p2 traj phase var_name units idx.
Proof. unfold _get_phase_value. rewrite !same_val. reflexivity. Qed.

Lemma get_phase_diff_same (traj phase var_name units : string) (idx : indices) :
  _get_phase_diff p1 traj phase var_name units idx
  = _get_phase_diff p2 traj phase var_name units idx.
Proof. unfold _get_phase_diff. rewrite get_phase_value_same. reflexivity. Qed.

Lemma phase_step_same (idx : nat) (phase : string) (st : locals) :
  phase_step p1 idx phase st = phase_step p2 idx phase st.
Proof.
  unfold phase_step. rewrite !get_phase_diff_same, !get_phase_value_same.
  reflexivity.
Qed.

Lemma phase_loop_same (phases : list string) :
  forall idx st, phase_loop p1 idx phases st = phase_loop p2 idx phases st.
Proof.
  induction phases as [|p rest IH]; intros idx st; simpl; [reflexivity|].
  rewrite phase_step_same. destruct (phase_step p2 idx p st); simpl; [apply IH|reflexivity].
Qed.

Lemma mission_tables_same :
  phase_info p1 = phase_info p2 -> mission_tables p1 = mission_tables p2.
Proof. intros Hp. unfold mission_tables. rewrite Hp, phase_loop_same. reflexivity. Qed.

End SameAnswers.

Lemma path_join_ne (folder : path) (name : string) : path_join folder name <> folder.
Proof.
  unfold path_join. intros H. apply (f_equal length) in H.
  rewrite length_app in H. simpl in H. lia.
Qed.

(** C9.  The mission report depends on nothing but the answers of the
    problem: two problems that answer every [get_val] query alike and have
    the same [phase_info] compute the same tables, and reports written for
    them hold the same content whatever the file systems held before and
    whatever options were passed; running the report again on the file
    system it produced changes nothing. *)
Theorem mission_report_deterministic (p1 p2 : AviaryProblem) (kw1 kw2 : kwargs)
    (s1 s2 : fs) :
  (forall p units idx, get_val p1 p units idx = get_val p2 p units idx) ->
  phase_info p1 = phase_info p2 ->
  mission_tables p1 = mission_tables p2 /\
  (forall s1' s2',
      mission_report p1 kw1 s1 = (Ok tt, s1') ->
      mission_report p2 kw2 s2 = (Ok tt, s2') ->
      s1' !! report_file p1 = s2' !! report_file p2) /\
  (forall s1',
      mission_report p1 kw1 s1 = (Ok tt, s1') ->
      mission_report p1 kw2 s1' = (Ok tt, s1')).
Proof.
  intros Hval Hp.
  pose proof (mission_tables_same p1 p2 Hval Hp) as Htab.
  split; [exact Htab|]. split.
  - intros s1' s2' H1 H2.
    apply mission_report_ok in H1 as (t1 & d1 & doc1 & Ht1 & Hr1 & _ & _ & ->).
    apply mission_report_ok in H2 as (t2 & d2 & doc2 & Ht2 & Hr2 & _ & _ & ->).
    rewrite !lookup_insert_eq.
    rewrite Htab, Ht2 in Ht1. injection Ht1 as <- <-.
    rewrite Hr2 in Hr1. injection Hr1 as <-. reflexivity.
  - intros s1' H1.
    apply mission_report_ok in H1 as (t1 & d1 & doc1 & Ht1 & Hr1 & _ & Hdir & ->).
    rewrite (mission_report_written p1 kw2 _ t1 d1 doc1 Ht1 Hr1).
    + rewrite insert_insert_eq. reflexivity.
    + rewrite lookup_insert_eq. discriminate.
    + rewrite lookup_insert_ne by apply path_join_ne. exact Hdir.
Qed.

Lemma mission_report_deterministic_witness :
  mission_tables demo_problem = mission_tables demo_problem /\
  (forall s1' s2',
      mission_report demo_problem [] demo_fs = (Ok tt, s1') ->
      mission_report demo_problem [("verbose", "1")]
        (<[ ["reports"; "mission_summary.md"] := File [Text "stale"] ]> demo_fs)
      = (Ok tt, s2') ->
      s1' !! report_file demo_problem = s2' !! report_file demo_problem) /\
  (forall s1',
      mission_report demo_problem [] demo_fs = (Ok tt, s1') ->
      mission_report demo_problem [("verbose", "1")] s1' = (Ok tt, s1')).
Proof.
  apply (mission_report_deterministic demo_problem demo_problem [] [("verbose", "1")]
           demo_fs (<[ ["reports"; "mission_summary.md"] := File [Text "stale"] ]> demo_fs)).
  - reflexivity.
  - reflexivity.
Defined.

(** A report over a stale file replaces it by the content a first report
    writes. *)
Example stale_file_replaced :
  snd (mission_report demo_problem []
         (<[ ["reports"; "mission_summary.md"] := File [Text "stale"] ]> demo_fs))
    !! report_file demo_problem
  = snd (mission_report demo_problem [] demo_fs) !! report_file demo_problem.
Proof. vm_compute. reflexivity. Qed.

(** ** C8: the subsystems folder *)

Lemma mkdir_exist_ok_absent (p : path) (s : fs) :
  s !! p = None -> s !! parent p = Some Dir ->
  mkdir_exist_ok p s = (Ok tt, <[p := Dir]> s).
Proof. intros Hp Hpar. unfold mkdir_exist_ok. rewrite Hp, Hpar. reflexivity. Qed.

Lemma mkdir_exist_ok_present (p : path) (s : fs) :
  s !! p = Some Dir -> mkdir_exist_ok p s = (Ok tt, s).
Proof. intros Hp. unfold mkdir_exist_ok. rewrite Hp. reflexivity. Qed.

Lemma mkdir_exist_ok_dir (p : path) (s s' : fs) :
  mkdir_exist_ok p s = (Ok tt, s') -> s' !! p = Some Dir.
Proof.
  unfold mkdir_exist_ok.
  destruct (s !! p) as [[|c]|] eqn:Hp.
  - intros H. injection H as <-. exact Hp.
  - discriminate.
  - destruct (s !! parent p) as [[|c]|]; try discriminate.
    intros H. injection H as <-. apply lookup_insert_eq.
Qed.

(** C8.  [subsystem_report] creates the folder [subsystems] under the
    reports directory when it is absent, goes on without failure and without
    change when the folder already exists, and creating it again after a
    successful creation changes nothing: in each case the subsystem reports
    then run with that folder. *)
Theorem subsystem_report_folder (prob : AviaryProblem) (kw : kwargs) (s : fs) :
  let folder := path_join (get_reports_dir prob) "subsystems" in
  let dispatch := report_all prob (map snd (core_subsystems prob)) folder kw in
  (s !! get_reports_dir prob = Some Dir -> s !! folder = None ->
     mkdir_exist_ok folder s = (Ok tt, <[folder := Dir]> s) /\
     <[folder := Dir]> s !! folder = Some Dir /\
     subsystem_report prob kw s = dispatch (<[folder := Dir]> s)) /\
  (s !! folder = Some Dir ->
     mkdir_exist_ok folder s = (Ok tt, s) /\
     subsystem_report prob kw s = dispatch s) /\
  (forall s', mkdir_exist_ok folder s = (Ok tt, s') ->
     s' !! folder = Some Dir /\ mkdir_exist_ok folder s' = (Ok tt, s')).
Proof.
  intros folder dispatch. split; [|split].
  - intros Hdir Habs.
    assert (mkdir_exist_ok folder s = (Ok tt, <[folder := Dir]> s)) as Hm.
    { apply mkdir_exist_ok_absent; [exact Habs|].
      unfold folder. rewrite parent_path_join. exact Hdir. }
    split; [exact Hm|]. split; [apply lookup_insert_eq|].
    unfold subsystem_report, io_bind. fold folder. rewrite Hm. reflexivity.
  - intros Hdir.
    pose proof (mkdir_exist_ok_present folder s Hdir) as Hm.
    split; [exact Hm|].
    unfold subsystem_report, io_bind. fold folder. rewrite Hm. reflexivity.
  - intros s' Hm. apply mkdir_exist_ok_dir in Hm as Hd.
    split; [exact Hd|]. apply mkdir_exist_ok_present, Hd.
Qed.

Lemma subsystem_report_folder_witness :
  (subsystem_report demo_problem [] demo_fs
   = (Ok tt, <[ ["reports"; "subsystems"] := Dir ]> demo_fs)) /\
  (subsystem_report demo_problem [] (<[ ["reports"; "subsystems"] := Dir ]> demo_fs)
   = (Ok tt, <[ ["reports"; "subsystems"] := Dir ]> demo_fs)).
Proof.
  split.
  - destruct (subsystem_report_folder demo_problem [] demo_fs) as (Hnew & _ & _).
    destruct Hnew as (_ & _ & ->); reflexivity.
  - destruct (subsystem_report_folder demo_problem []
                (<[ ["reports"; "subsystems"] := Dir ]> demo_fs)) as (_ & Hold & _).
    destruct Hold as (_ & ->); reflexivity.
Defined.

(** ** C4: a phase whose mass is missing *)

Section MassAbsent.

Variable prob : ProblemData.
Variable phase : string.
Hypothesis no_series : forall idx,
  get_val prob ("traj" +:+ "." +:+ phase +:+ ".timeseries." +:+ "mass") "lbm" idx
  = Raise KeyError.
Hypothesis no_scalar : forall idx,
  get_val prob ("traj" +:+ "." +:+ phase +:+ "." +:+ "mass") "lbm" idx
  = Raise KeyError.

Lemma mass_value_none (idx : indices) :
  _get_phase_value prob "traj" phase "mass" "lbm" idx = Ok PyNone.
Proof. unfold _get_phase_value. rewrite no_series, no_scalar. reflexivity. Qed.

(** The delta of the mass is None, as the helper intends. *)
Lemma mass_diff_none (idx : indices) :
  _get_phase_diff prob "traj" phase "mass" "lbm" idx = Ok PyNone.
Proof. unfold _get_phase_diff. rewrite mass_value_none. reflexivity. Qed.

(** The final values subscript the None. *)
Lemma end_values_mass_absent (i : Z) : end_values prob phase i = Raise TypeError.
Proof. unfold end_values. rewrite mass_value_none. reflexivity. Qed.

Lemma phase_step_mass_absent (idx : nat) (st : locals) :
  exists e, phase_step prob idx phase st = Raise e.
Proof.
  rewrite phase_step_eq, !end_values_mass_absent.
  destruct (phase_deltas prob phase) as [v|e]; cbn [rbind]; [|eauto].
  destruct (Nat.eqb idx 0); cbn [rbind]; eauto.
Qed.

Lemma phase_loop_mass_absent (phases : list string) :
  phase ∈ phases ->
  forall idx st, exists e, phase_loop prob idx phases st = Raise e.
Proof.
  induction phases as [|p rest IH]; intros Hin idx st.
  - apply elem_of_nil in Hin. contradiction.
  - cbn [phase_loop].
    destruct (decide (p = phase)) as [->|Hne].
    + destruct (phase_step_mass_absent idx st) as (e & ->). eauto.
    + apply elem_of_cons in Hin as [Heq|Hin]; [congruence|].
      destruct (phase_step prob idx p st) as [st1|e]; cbn [rbind]; [|eauto].
      apply IH, Hin.
Qed.

End MassAbsent.

(** Whenever a phase of the mission has its mass under neither path, the
    report raises and writes nothing. *)
Lemma mission_report_mass_absent (prob : AviaryProblem) (kw : kwargs) (s : fs)
    (phase : string) :
  phase ∈ phase_info prob ->
  (forall idx,
      get_val prob ("traj" +:+ "." +:+ phase +:+ ".timeseries." +:+ "mass") "lbm" idx
      = Raise KeyError) ->
  (forall idx,
      get_val prob ("traj" +:+ "." +:+ phase +:+ "." +:+ "mass") "lbm" idx
      = Raise KeyError) ->
  exists e, mission_report prob kw s = (Raise e, s).
Proof.
  intros Hin Hts Hsc.
  destruct (phase_loop_mass_absent prob phase Hts Hsc _ Hin 0%nat locals0) as (e & He).
  exists e. apply mission_report_raise. unfold mission_tables. rewrite He. reflexivity.
Qed.

(** C4.  On the demonstration mission with the mass of the cruise phase
    under neither the time-series path nor the scalar path, the mass delta
    of that phase is None, but the report raises TypeError when it
    subscripts the final mass and writes no file: no entry of any phase is
    produced. *)
Theorem mission_report_missing_mass_raises :
  get_val no_mass_problem "traj.cruise.timeseries.mass" "lbm" (IdxList [-1; 0])
    = Raise KeyError /\
  get_val no_mass_problem "traj.cruise.mass" "lbm" (IdxList [-1; 0]) = Raise KeyError /\
  _get_phase_diff no_mass_problem "traj" "cruise" "mass" "lbm" (IdxList [-1; 0])
    = Ok PyNone /\
  mission_report no_mass_problem [] demo_fs = (Raise TypeError, demo_fs) /\
  demo_fs !! report_file no_mass_problem = None.
Proof.
  split; [reflexivity|]. split; [reflexivity|]. split; [reflexivity|].
  split; [|reflexivity].
  apply mission_report_raise. vm_compute. reflexivity.
Qed.

(** ** NumPy subtraction *)

Lemma np_sub_arr (la lb : list ndarray) :
  np_sub (Arr la) (Arr lb)
  = match Nat.compare (rank (Arr la)) (rank (Arr lb)) with
    | Gt => rmap Arr (mapM (fun a' => np_sub a' (Arr lb)) la)
    | Lt => rmap Arr (mapM (np_sub (Arr la)) lb)
    | Eq =>
        if Nat.eqb (length la) (length lb)
        then rmap Arr (zipWithM np_sub la lb)
        else
          match la, lb with
          | [a1], _ => rmap Arr (mapM (fun b' => np_sub a1 b') lb)
          | _, [b1] => rmap Arr (mapM (fun a' => np_sub a' b1) la)
          | _, _ => Raise ValueError
          end
    end.
Proof. reflexivity. Qed.

Lemma rank_shape : forall a : ndarray, rank a = length (shape a).
Proof.
  fix IH 1. intros [x|[|a l]]; simpl; [reflexivity | reflexivity |].
  f_equal. apply IH.
Qed.

(** The difference of two arrays whose first items have the same number of
    axes starts with the difference of the first items. *)
Lemma np_sub_first (x y x0 y0 d : ndarray) :
  getitem x 0 = Ok x0 -> getitem y 0 = Ok y0 -> rank x0 = rank y0 ->
  np_sub x y = Ok d ->
  exists z, np_sub x0 y0 = Ok z /\ first_if_array d = Ok z.
Proof.
  intros Hx Hy Hr Hd.
  apply getitem_0_inv in Hx as (lx & ->). apply getitem_0_inv in Hy as (ly & ->).
  rewrite np_sub_arr in Hd.
  replace (rank (Arr (x0 :: lx)) ?= rank (Arr (y0 :: ly)))%nat with Eq in Hd
    by (symmetry; apply Nat.compare_eq_iff; simpl; congruence).
  assert (forall zs, rmap Arr (z <- np_sub x0 y0 ;; zs' <- zs ;; Ok (z :: zs')) = Ok d ->
          exists z, np_sub x0 y0 = Ok z /\ first_if_array d = Ok z) as Hgo.
  { intros zs H. apply rmap_ok in H as (l & H & ->).
    apply rbind_ok in H as (z & Hz & H). apply rbind_ok in H as (zs' & _ & H).
    injection H as <-. exists z. split; [exact Hz|]. apply getitem_head. }
  destruct (Nat.eqb (length (x0 :: lx)) (length (y0 :: ly))).
  - cbn [zipWithM] in Hd. eapply Hgo, Hd.
  - destruct lx as [|x1 lx].
    + cbn [mapM] in Hd. eapply Hgo, Hd.
    + destruct ly as [|y1 ly]; [|discriminate].
      cbn [mapM] in Hd. eapply Hgo, Hd.
Qed.

Lemma rect_items (l : list ndarray) (x y : ndarray) :
  rect (Arr l) = true -> x ∈ l -> y ∈ l -> shape x = shape y.
Proof.
  destruct l as [|h t]; [intros _ Hx; apply elem_of_nil in Hx; contradiction|].
  cbn [rect]. intros [_ Ht]%andb_true_iff.
  assert (forall z, z ∈ h :: t -> shape z = shape h) as Hall.
  { intros z [->|Hz]%elem_of_cons; [reflexivity|].
    rewrite forallb_forall in Ht. apply list_elem_of_In in Hz.
    apply Ht in Hz. apply bool_decide_eq_true in Hz. exact Hz. }
  intros Hx Hy. rewrite (Hall x Hx), (Hall y Hy). reflexivity.
Qed.

(** Two items of a rectangular array have first items with the same number
    of axes. *)
Lemma rect_rows_first_rank (a x y x0 y0 : ndarray) (i j : Z) :
  rect a = true ->
  getitem a i = Ok x -> getitem a j = Ok y ->
  getitem x 0 = Ok x0 -> getitem y 0 = Ok y0 ->
  rank x0 = rank y0.
Proof.
  intros Hrect Hi Hj Hx Hy.
  destruct (getitem_arr _ _ _ Hi) as (l & -> & Hxl).
  destruct (getitem_arr _ _ _ Hj) as (l' & Heq & Hyl). injection Heq as <-.
  pose proof (rect_items l x y Hrect Hxl Hyl) as Hs.
  apply getitem_0_inv in Hx as (lx & ->). apply getitem_0_inv in Hy as (ly & ->).
  simpl in Hs. injection Hs as _ Hs. rewrite !rank_shape. congruence.
Qed.

(** ** Deltas of a problem backed by a store *)

Section StoreDeltas.

Variable vars : string -> string -> result ndarray.
Variable phases : list string.
Variable dir : path.
Variable subs : pydict SubsystemBuilder.

Local Abbreviation prob := (store_problem vars phases dir subs).

Lemma store_value_inv (traj phase var_name units : string) (idx : indices)
    (v : ndarray) :
  _get_phase_value prob traj phase var_name units idx = Ok (Nd v) ->
  exists a, resolve vars traj phase var_name units = Ok (Some a) /\
            numpy_index a idx = Ok v.
Proof.
  rewrite store_phase_value.
  destruct (resolve vars traj phase var_name units) as [[a|]|e]; cbn [rbind];
    intros H; try discriminate.
  apply rmap_ok in H as (v' & Hv & Heq). injection Heq as ->. eauto.
Qed.

(** With the index list [[i; j]] the delta is the item at [j] minus the
    item at [i] of the resolved array. *)
Lemma store_phase_diff (traj phase var_name units : string) (i j : Z) :
  _get_phase_diff prob traj phase var_name units (IdxList [i; j])
  = (o <- resolve vars traj phase var_name units ;;
     match o with
     | Some a =>
         x <- getitem a i ;;
         y <- getitem a j ;;
         diff <- np_sub y x ;;
         rmap Nd (first_if_array diff)
     | None => Ok PyNone
     end).
Proof.
  unfold _get_phase_diff. rewrite store_phase_value.
  destruct (resolve vars traj phase var_name units) as [[a|]|e]; cbn [rbind];
    try reflexivity.
  destruct a as [f|l]; [reflexivity|].
  unfold numpy_index. cbn [mapM].
  destruct (getitem (Arr l) i) as [x|e]; cbn [rbind rmap]; [|reflexivity].
  destruct (getitem (Arr l) j) as [y|e]; cbn [rbind rmap]; [|reflexivity].
  rewrite getitem_pair_last, getitem_head. reflexivity.
Qed.

Hypothesis vars_rect : forall p units a, vars p units = Ok a -> rect a = true.

Lemma resolve_rect (traj phase var_name units : string) (a : ndarray) :
  resolve vars traj phase var_name units = Ok (Some a) -> rect a = true.
Proof.
  unfold resolve.
  destruct (vars (traj +:+ "." +:+ phase +:+ ".timeseries." +:+ var_name) units)
    as [a1|e1] eqn:H1.
  - intros H. injection H as <-. eapply vars_rect, H1.
  - destruct e1; try discriminate.
    destruct (vars (traj +:+ "." +:+ phase +:+ "." +:+ var_name) units)
      as [a2|e2] eqn:H2.
    + intros H. injection H as <-. eapply vars_rect, H2.
    + destruct e2; try discriminate.
      destruct (vars (traj +:+ "." +:+ phase +:+ ".timeseries.time") units)
        as [a3|e3] eqn:H3; [|discriminate].
      intros H. injection H as <-. eapply vars_rect, H3.
Qed.

(** A delta read with [[i; j]] is the first item read at [j] minus the
    first item read at [i]. *)
Lemma store_delta_of_ends (traj phase var_name units : string) (i j : Z)
    (mi mj ei ej total delta : pyval) :
  _get_phase_value prob traj phase var_name units (IdxInt i) = Ok mi ->
  py_getitem mi 0 = Ok ei ->
  _get_phase_value prob traj phase var_name units (IdxInt j) = Ok mj ->
  py_getitem mj 0 = Ok ej ->
  py_sub ej ei = Ok total ->
  _get_phase_diff prob traj phase var_name units (IdxList [i; j]) = Ok delta ->
  delta = total.
Proof.
  intros Hmi Hei Hmj Hej Htot Hdelta.
  destruct mi as [|x]; [discriminate|]. destruct mj as [|y]; [discriminate|].
  apply rmap_ok in Hei as (x0 & Hx0 & ->). apply rmap_ok in Hej as (y0 & Hy0 & ->).
  apply rmap_ok in Htot as (tot & Htot & ->).
  apply store_value_inv in Hmi as (a & Ha & Hx).
  apply store_value_inv in Hmj as (a' & Ha' & Hy).
  rewrite Ha in Ha'. injection Ha' as <-. simpl in Hx, Hy.
  rewrite store_phase_diff, Ha in Hdelta. cbn [rbind] in Hdelta.
  rewrite Hx in Hdelta. cbn [rbind] in Hdelta.
  rewrite Hy in Hdelta. cbn [rbind] in Hdelta.
  apply rbind_ok in Hdelta as (d & Hd & Hdelta).
  apply rmap_ok in Hdelta as (z' & Hz' & ->).
  destruct (np_sub_first y x y0 x0 d Hy0 Hx0) as (z & Hz & Hf); [|exact Hd|].
  - apply (rect_rows_first_rank a y x y0 x0 j i); try assumption.
    eapply resolve_rect, Ha.
  - congruence.
Qed.

(** For the time, whose end values are not subscripted, the delta is the
    difference of the end values when that is a number, and its first
    item when it is an array. *)
Lemma store_delta_of_unsubscripted_ends (traj phase var_name units : string)
    (i j : Z) (ti tj total delta : pyval) :
  _get_phase_value prob traj phase var_name units (IdxInt i) = Ok ti ->
  _get_phase_value prob traj phase var_name units (IdxInt j) = Ok tj ->
  py_sub tj ti = Ok total ->
  _get_phase_diff prob traj phase var_name units (IdxList [i; j]) = Ok delta ->
  exists a, total = Nd a /\ rmap Nd (first_if_array a) = Ok delta.
Proof.
  intros Hti Htj Htot Hdelta.
  destruct ti as [|x]; [destruct tj; discriminate|].
  destruct tj as [|y]; [discriminate|].
  apply rmap_ok in Htot as (tot & Htot & ->).
  apply store_value_inv in Hti as (a & Ha & Hx).
  apply store_value_inv in Htj as (a' & Ha' & Hy).
  rewrite Ha in Ha'. injection Ha' as <-. simpl in Hx, Hy.
  rewrite store_phase_diff, Ha in Hdelta. cbn [rbind] in Hdelta.
  rewrite Hx in Hdelta. cbn [rbind] in Hdelta.
  rewrite Hy in Hdelta. cbn [rbind] in Hdelta.
  rewrite Htot in Hdelta. cbn [rbind] in Hdelta.
  exists tot. auto.
Qed.

End StoreDeltas.

(** ** C3: the per-phase delta *)

(** C3.  The delta of a phase variable is the retrieved array's item at -1
    minus its item at 0; when that difference is an array only its first
    item is used; when the retrieval gave None the delta is None.  For the
    mass, which the report requests with the indices [-1, 0], the retrieved
    array holds the final item first, so the delta is the item at the
    initial index minus the item at the final index.  The loop stores the
    three deltas under the phase name. *)
Theorem get_phase_diff_delta (prob : ProblemData)
    (traj phase var_name units : string) (idx : indices) :
  let v := _get_phase_value prob traj phase var_name units idx in
  let r := _get_phase_diff prob traj phase var_name units idx in
  (v = Ok PyNone -> r = Ok PyNone) /\
  (forall e, v = Raise e -> r = Raise e) /\
  (forall vals last first diff,
      v = Ok (Nd vals) ->
      getitem vals (-1) = Ok last ->
      getitem vals 0 = Ok first ->
      np_sub last first = Ok diff ->
      (forall x, diff = Num x -> r = Ok (Nd (Num x))) /\
      (forall items, diff = Arr items -> r = rmap Nd (getitem diff 0))) /\
  (forall vars phases dir subs a initial final,
      resolve vars "traj" phase "mass" "lbm" = Ok (Some a) ->
      getitem a 0 = Ok initial ->
      getitem a (-1) = Ok final ->
      _get_phase_diff (store_problem vars phases dir subs) "traj" phase "mass" "lbm"
        (IdxList [-1; 0])
      = (diff <- np_sub initial final ;; rmap Nd (first_if_array diff))) /\
  (forall i st st',
      phase_step prob i phase st = Ok st' ->
      exists fuel_burn time range,
        _get_phase_diff prob "traj" phase "mass" "lbm" (IdxList [-1; 0]) = Ok fuel_burn /\
        _get_phase_diff prob "traj" phase "t" "min" (IdxList [0; -1]) = Ok time /\
        _get_phase_diff prob "traj" phase "distance" "nmi" (IdxList [0; -1]) = Ok range /\
        dict_get phase (data st') = Ok (phase_table (fuel_burn, time, range))).
Proof.
  intros v r. subst v r. unfold _get_phase_diff.
  split; [|split; [|split; [|split]]].
  - intros ->. reflexivity.
  - intros e ->. reflexivity.
  - intros vals last first diff -> Hl Hf Hd. cbn [rbind]. rewrite Hl, Hf. cbn [rbind].
    rewrite Hd. cbn [rbind]. split.
    + intros x ->. reflexivity.
    + intros items ->. reflexivity.
  - intros vars phases dir subs a initial final Ha Hi Hf.
    fold (_get_phase_diff (store_problem vars phases dir subs) "traj" phase "mass"
            "lbm" (IdxList [-1; 0])).
    rewrite store_phase_diff, Ha. cbn [rbind]. rewrite Hf, Hi. reflexivity.
  - intros i st st' H. rewrite phase_step_eq in H.
    apply rbind_ok in H as ([[fb t] rg] & Hv & H).
    apply rbind_ok in H as (st1 & _ & H).
    apply rbind_ok in H as (fv & _ & H). injection H as <-.
    unfold phase_deltas in Hv.
    apply rbind_ok in Hv as (fb' & Hfb & Hv).
    apply rbind_ok in Hv as (t' & Ht & Hv).
    apply rbind_ok in Hv as (rg' & Hrg & Hv). injection Hv as -> -> ->.
    exists fb, t, rg. repeat split; try assumption.
    simpl. apply dict_get_set_eq.
Qed.

Lemma get_phase_diff_delta_witness :
  _get_phase_diff demo_problem "traj" "climb" "mass" "lbm" (IdxList [-1; 0])
  = Ok (Nd (Num 20)) /\
  _get_phase_diff demo_problem "traj" "climb" "altitude" "ft" (IdxList [0; -1])
  = Ok PyNone.
Proof.
  split.
  - destruct (get_phase_diff_delta demo_problem "traj" "climb" "mass" "lbm"
                (IdxList [-1; 0])) as (_ & _ & _ & Hmass & _).
    etransitivity;
      [exact (Hmass (table_vars demo_vars) ["climb"; "cruise"; "descent"] ["reports"]
                [] (column [1000; 990; 980]%float) (Arr [Num 1000]) (Arr [Num 980])
                eq_refl eq_refl eq_refl)
      | reflexivity].
  - destruct (get_phase_diff_delta demo_problem "traj" "climb" "altitude" "ft"
                (IdxList [0; -1])) as (Hnone & _).
    apply Hnone. reflexivity.
Defined.

(** ** C5: a mission of one phase *)



(** With the time read from the scalar path, which is a vector, the three
    totals of the single phase equal its three entries. *)
Example single_problem_report :
  mission_report single_problem [] demo_fs
  = (Ok tt,
     <[report_file single_problem :=
         File (summary_document (Nd (Num 20)) (Nd (Num 10)) (Nd (Num 40))
                 [("climb", (Nd (Num 20), Nd (Num 10), Nd (Num 40)))])]> demo_fs).
Proof.
  apply mission_report_written with
    (totals := totals_table (Nd (Num 20)) (Nd (Num 10)) (Nd (Num 40)))
    (data := map data_entry [("climb", (Nd (Num 20), Nd (Num 10), Nd (Num 40)))]).
  - vm_compute. reflexivity.
  - vm_compute. reflexivity.
  - vm_compute. discriminate.
  - vm_compute. reflexivity.
Qed.

(** With the time stored as a column, Total Time is a one-item array and the
    Elapsed Time entry is the number in it. *)
Lemma column_time_report :
  mission_report column_time_problem [] demo_fs
  = (Ok tt,
     <[report_file column_time_problem :=
         File (summary_document (Nd (Num 20)) (Nd (Arr [Num 10])) (Nd (Num 40))
                 [("climb", (Nd (Num 20), Nd (Num 10), Nd (Num 40)))])]> demo_fs).
Proof.
  apply mission_report_written with
    (totals := totals_table (Nd (Num 20)) (Nd (Arr [Num 10])) (Nd (Num 40)))
    (data := map data_entry [("climb", (Nd (Num 20), Nd (Num 10), Nd (Num 40)))]).
  - vm_compute. reflexivity.
  - vm_compute. reflexivity.
  - vm_compute. discriminate.
  - vm_compute. reflexivity.
Qed.

(** With a time of two columns, Total Time holds both column differences and
    the Elapsed Time entry only the first. *)
Lemma two_column_time_report :
  mission_report two_column_time_problem [] demo_fs
  = (Ok tt,
     <[report_file two_column_time_problem :=
         File (summary_document (Nd (Num 20)) (Nd (Arr [Num 10; Num 45])) (Nd (Num 40))
                 [("climb", (Nd (Num 20), Nd (Num 10), Nd (Num 40)))])]> demo_fs).
Proof.
  apply mission_report_written with
    (totals := totals_table (Nd (Num 20)) (Nd (Arr [Num 10; Num 45])) (Nd (Num 40)))
    (data := map data_entry [("climb", (Nd (Num 20), Nd (Num 10), Nd (Num 40)))]).
  - vm_compute. reflexivity.
  - vm_compute. reflexivity.
  - vm_compute. discriminate.
  - vm_compute. reflexivity.
Qed.


(** * Further properties *)

(** ** The subsystem dispatcher *)

Lemma report_all_app (prob : AviaryProblem) (l1 l2 : list SubsystemBuilder)
    (folder : path) (kw : kwargs) (s : fs) :
  report_all prob (l1 ++ l2) folder kw s
  = match report_all prob l1 folder kw s with
    | (Ok _, s1) => report_all prob l2 folder kw s1
    | (Raise e, s1) => (Raise e, s1)
    end.
Proof.
  revert s. induction l1 as [|b l1 IH]; intros s; [reflexivity|].
  cbn [app report_all]. unfold io_bind.
  destruct (report b prob folder kw s) as [[[]|e] s1]; [apply IH|reflexivity].
Qed.

(** X1.  The reports of the subsystem builders run in the order of
    [core_subsystems]; the first one that raises ends [subsystem_report]
    with its exception and the file system as that report left it, and no
    later builder runs. *)
Theorem subsystem_report_first_failure (prob : AviaryProblem) (kw : kwargs)
    (s s0 s1 s2 : fs) (before after : list SubsystemBuilder)
    (failing : SubsystemBuilder) (e : exn) :
  let folder := path_join (get_reports_dir prob) "subsystems" in
  map snd (core_subsystems prob) = (before ++ failing :: after)%list ->
  mkdir_exist_ok folder s = (Ok tt, s0) ->
  report_all prob before folder kw s0 = (Ok tt, s1) ->
  report failing prob folder kw s1 = (Raise e, s2) ->
  subsystem_report prob kw s = (Raise e, s2).
Proof.
  intros folder Hsubs Hmk Hbefore Hfail.
  unfold subsystem_report. fold folder. unfold io_bind at 1.
  rewrite Hmk, Hsubs, report_all_app, Hbefore.
  cbn [report_all]. unfold io_bind. rewrite Hfail. reflexivity.
Qed.

Lemma subsystem_report_first_failure_witness :
  exists s2,
    subsystem_report subsystems_problem [] demo_fs
    = (Raise (OtherError "no report"), s2) /\
    s2 !! ["reports"; "subsystems"; "aerodynamics.md"] = Some (File [Text "report"]) /\
    s2 !! ["reports"; "subsystems"; "mass.md"] = None.
Proof.
  eexists. split; [|split].
  - apply (subsystem_report_first_failure subsystems_problem [] demo_fs
             (<[ ["reports"; "subsystems"] := Dir ]> demo_fs)
             (snd (report (writing_builder "aerodynamics.md") subsystems_problem
                     ["reports"; "subsystems"] []
                     (<[ ["reports"; "subsystems"] := Dir ]> demo_fs)))
             _ [writing_builder "aerodynamics.md"] [writing_builder "mass.md"]
             failing_builder (OtherError "no report")).
    + reflexivity.
    + reflexivity.
    + reflexivity.
    + reflexivity.
  - reflexivity.
  - reflexivity.
Defined.

(** X2.  When the folder cannot be created, [subsystem_report] raises what
    [mkdir] raises, leaves the file system as it was and runs no builder:
    FileNotFoundError without a reports directory, NotADirectoryError when
    the reports directory is a file, FileExistsError when a file has the
    name of the folder. *)
Theorem subsystem_report_mkdir_failure (prob : AviaryProblem) (kw : kwargs) (s : fs) :
  let folder := path_join (get_reports_dir prob) "subsystems" in
  (s !! folder = None -> s !! get_reports_dir prob = None ->
     subsystem_report prob kw s = (Raise FileNotFoundError, s)) /\
  (forall c, s !! folder = None -> s !! get_reports_dir prob = Some (File c) ->
     subsystem_report prob kw s = (Raise NotADirectoryError, s)) /\
  (forall c, s !! folder = Some (File c) ->
     subsystem_report prob kw s = (Raise FileExistsError, s)).
Proof.
  intros folder. unfold subsystem_report. fold folder. unfold io_bind, mkdir_exist_ok.
  assert (parent folder = get_reports_dir prob) as -> by apply parent_path_join.
  split; [|split].
  - intros -> ->. reflexivity.
  - intros c -> ->. reflexivity.
  - intros c ->. reflexivity.
Qed.

Lemma subsystem_report_mkdir_failure_witness :
  subsystem_report subsystems_problem [] ∅ = (Raise FileNotFoundError, ∅) /\
  subsystem_report subsystems_problem [] (<[ ["reports"] := File [] ]> ∅)
  = (Raise NotADirectoryError, <[ ["reports"] := File [] ]> ∅) /\
  subsystem_report subsystems_problem []
    (<[ ["reports"; "subsystems"] := File [] ]> demo_fs)
  = (Raise FileExistsError, <[ ["reports"; "subsystems"] := File [] ]> demo_fs).
Proof.
  split; [|split].
  - destruct (subsystem_report_mkdir_failure subsystems_problem [] ∅) as (H & _).
    apply H; reflexivity.
  - destruct (subsystem_report_mkdir_failure subsystems_problem []
                (<[ ["reports"] := File [] ]> ∅)) as (_ & H & _).
    apply (H []); reflexivity.
  - destruct (subsystem_report_mkdir_failure subsystems_problem []
                (<[ ["reports"; "subsystems"] := File [] ]> demo_fs)) as (_ & _ & H).
    apply (H []). reflexivity.
Defined.

(** ** What the generators leave alone *)

Lemma io_bind_frame {A B : Type} (P : path -> Prop) (m : io A) (k : A -> io B) :
  (forall s q, P q -> snd (m s) !! q = s !! q) ->
  (forall a s q, P q -> snd (k a s) !! q = s !! q) ->
  forall s q, P q -> snd (io_bind m k s) !! q = s !! q.
Proof.
  intros Hm Hk s q Hq. unfold io_bind.
  specialize (Hm s q Hq). destruct (m s) as [[a|e] s1]; simpl in *.
  - rewrite Hk by exact Hq. exact Hm.
  - exact Hm.
Qed.

Lemma open_w_frame (p : path) (s : fs) (q : path) :
  q <> p -> snd (open_w p s) !! q = s !! q.
Proof.
  intros Hq. unfold open_w.
  destruct (s !! p) as [[|c]|]; destruct (s !! parent p) as [[|c']|]; simpl;
    try reflexivity; apply lookup_insert_ne; congruence.
Qed.

Lemma emit_frame (f : path) (c : chunk) (s : fs) (q : path) :
  q <> f -> snd (emit f c s) !! q = s !! q.
Proof.
  intros Hq. unfold emit. destruct (s !! f) as [[|content]|]; simpl;
    try reflexivity. apply lookup_insert_ne. congruence.
Qed.

Lemma mkdir_exist_ok_frame (p : path) (s : fs) (q : path) :
  q <> p -> snd (mkdir_exist_ok p s) !! q = s !! q.
Proof.
  intros Hq. unfold mkdir_exist_ok.
  destruct (s !! p) as [[|c]|]; simpl; try reflexivity.
  destruct (s !! parent p) as [[|c']|]; simpl; try reflexivity.
  apply lookup_insert_ne. congruence.
Qed.

Lemma write_table_frame (f : path) (table : NamedValues) (outputs : list string)
    (metadata : pydict (pydict string)) (s : fs) (q : path) :
  q <> f -> snd (write_markdown_variable_table f table outputs metadata s) !! q = s !! q.
Proof.
  intros Hq. unfold write_markdown_variable_table.
  apply (io_bind_frame (fun q => q <> f)); [reflexivity | | exact Hq].
  intros rows s' q' Hq'. apply emit_frame, Hq'.
Qed.

Lemma write_segments_frame (f : path) (data : pydict NamedValues) (keys : list string) :
  forall s q, q <> f -> snd (write_segments f data keys s) !! q = s !! q.
Proof.
  induction keys as [|k keys IH]; [reflexivity|].
  cbn [write_segments].
  apply (io_bind_frame (fun q => q <> f)).
  { intros s q Hq. apply emit_frame, Hq. }
  intros _. apply (io_bind_frame (fun q => q <> f)); [reflexivity|].
  intros table. apply (io_bind_frame (fun q => q <> f)).
  { intros s q Hq. apply write_table_frame, Hq. }
  intros _. exact IH.
Qed.

Lemma write_body_frame (f : path) (totals : NamedValues) (data : pydict NamedValues) :
  forall s q, q <> f -> snd (write_body f totals data s) !! q = s !! q.
Proof.
  unfold write_body.
  apply (io_bind_frame (fun q => q <> f)).
  { intros s q Hq. apply emit_frame, Hq. }
  intros _. apply (io_bind_frame (fun q => q <> f)).
  { intros s q Hq. apply write_table_frame, Hq. }
  intros _. apply (io_bind_frame (fun q => q <> f)).
  { intros s q Hq. apply emit_frame, Hq. }
  intros _. apply write_segments_frame.
Qed.

(** X3.  Whatever its outcome, [mission_report] changes no path of the file
    system other than the report file [mission_summary.md] of the reports
    directory. *)
Theorem mission_report_touches_report_file_only (prob : AviaryProblem) (kw : kwargs)
    (s : fs) (q : path) :
  q <> report_file prob ->
  snd (mission_report prob kw s) !! q = s !! q.
Proof.
  intros Hq. unfold mission_report. fold (report_file prob).
  unfold io_bind at 1. unfold io_lift.
  destruct (mission_tables prob) as [[totals data]|e]; [|reflexivity].
  cbn [fst snd]. unfold io_bind at 1.
  change (f_write ?f "# MISSION SUMMARY" ;;; _)%io with (write_body f totals data).
  destruct (open_w (report_file prob) s) as [[f|e] s1] eqn:Ho.
  - apply open_w_ok in Ho as (-> & _ & _ & ->).
    rewrite write_body_frame by exact Hq. apply lookup_insert_ne. congruence.
  - apply open_w_raise in Ho as ->. reflexivity.
Qed.

Lemma mission_report_touches_report_file_only_witness :
  snd (mission_report demo_problem [] demo_fs) !! ["reports"] = Some Dir /\
  snd (mission_report demo_problem [] demo_fs) !! ["reports"; "subsystems"] = None.
Proof.
  split.
  - etransitivity;
      [apply (mission_report_touches_report_file_only demo_problem [] demo_fs
                ["reports"]); discriminate
      | reflexivity].
  - etransitivity;
      [apply (mission_report_touches_report_file_only demo_problem [] demo_fs
                ["reports"; "subsystems"]); discriminate
      | reflexivity].
Defined.

Lemma report_all_frame (prob : AviaryProblem) (P : path -> Prop) (folder : path)
    (kw : kwargs) (subsystems : list SubsystemBuilder) :
  (forall b s q, b ∈ subsystems -> P q ->
     snd (report b prob folder kw s) !! q = s !! q) ->
  forall s q, P q -> snd (report_all prob subsystems folder kw s) !! q = s !! q.
Proof.
  induction subsystems as [|b rest IH]; intros Hall; [reflexivity|].
  cbn [report_all]. apply (io_bind_frame P).
  - intros s q Hq. apply Hall; [left | exact Hq].
  - intros _. apply IH. intros b' s q Hb. apply Hall. right. exact Hb.
Qed.

(** X4.  If the report of every builder changes nothing outside the folder
    it is given, [subsystem_report] changes nothing outside the folder
    [subsystems] of the reports directory. *)
Theorem subsystem_report_stays_in_folder (prob : AviaryProblem) (kw : kwargs) :
  let folder := path_join (get_reports_dir prob) "subsystems" in
  (forall b s q, b ∈ map snd (core_subsystems prob) -> ~ folder `prefix_of` q ->
     snd (report b prob folder kw s) !! q = s !! q) ->
  forall s q, ~ folder `prefix_of` q ->
    snd (subsystem_report prob kw s) !! q = s !! q.
Proof.
  intros folder Hall. unfold subsystem_report. fold folder.
  apply (io_bind_frame (fun q => ~ folder `prefix_of` q)).
  - intros s q Hq. apply mkdir_exist_ok_frame. intros ->. apply Hq. reflexivity.
  - intros _. apply report_all_frame. exact Hall.
Qed.

Lemma writing_builder_frame (name : string) (prob : ProblemData) (folder : path)
    (kw : kwargs) (s : fs) (q : path) :
  ~ folder `prefix_of` q ->
  snd (report (writing_builder name) prob folder kw s) !! q = s !! q.
Proof.
  intros Hq. cbn [report writing_builder].
  assert (q <> path_join folder name) as Hne.
  { intros ->. apply Hq. exists [name]. reflexivity. }
  unfold io_bind. destruct (open_w (path_join folder name) s) as [[f|e] s1] eqn:Ho.
  - apply open_w_ok in Ho as (-> & _ & _ & ->). unfold f_write.
    rewrite emit_frame by exact Hne. apply lookup_insert_ne. congruence.
  - apply open_w_raise in Ho as ->. reflexivity.
Qed.

Lemma subsystem_report_stays_in_folder_witness :
  fst (subsystem_report writers_problem [] demo_fs) = Ok tt /\
  snd (subsystem_report writers_problem [] demo_fs) !! ["reports"] = Some Dir /\
  snd (subsystem_report writers_problem [] demo_fs) !! ["reports"; "mission_summary.md"]
  = None.
Proof.
  assert (forall b s q, b ∈ map snd (core_subsystems writers_problem) ->
            ~ path_join (get_reports_dir writers_problem) "subsystems" `prefix_of` q ->
            snd (report b writers_problem
                   (path_join (get_reports_dir writers_problem) "subsystems") [] s) !! q
            = s !! q) as Hall.
  { intros b s q Hb Hq. cbn [map snd core_subsystems writers_problem store_problem] in Hb.
    apply elem_of_cons in Hb as [->|Hb]; [apply writing_builder_frame, Hq|].
    apply elem_of_cons in Hb as [->|Hb]; [apply writing_builder_frame, Hq|].
    apply elem_of_nil in Hb. contradiction. }
  split; [reflexivity|]. split.
  - etransitivity;
      [apply (subsystem_report_stays_in_folder writers_problem [] Hall demo_fs
                ["reports"]); intros [k Hk]; discriminate Hk
      | reflexivity].
  - etransitivity;
      [apply (subsystem_report_stays_in_folder writers_problem [] Hall demo_fs
                ["reports"; "mission_summary.md"]); intros [k Hk]; discriminate Hk
      | reflexivity].
Defined.

(** ** When the mission report is written *)

Lemma tables_render (prob : ProblemData) (totals : NamedValues)
    (dat : pydict NamedValues) :
  mission_tables prob = Ok (totals, dat) ->
  exists doc, render_document totals dat = Ok doc.
Proof.
  intros Ht. destruct (phase_info prob) as [|first rest] eqn:Hp.
  { rewrite (mission_tables_empty prob Hp) in Ht. discriminate. }
  destruct (mission_tables_ok _ _ _ _ _ Hp Ht)
    as (iv & fv & vs & burn & dt & dr & _ & _ & _ & _ & _ & _ & -> & ->).
  eexists. apply render_tables, collect_keys_NoDup, NoDup_nil_2.
Qed.

(** X5.  [mission_report] completes exactly when the tables can be computed,
    the reports directory exists and the name of the report file is not
    taken by a directory; writing the tables never fails. *)
Theorem mission_report_succeeds_iff (prob : AviaryProblem) (kw : kwargs) (s : fs) :
  (exists s', mission_report prob kw s = (Ok tt, s')) <->
  (exists t, mission_tables prob = Ok t) /\
  s !! get_reports_dir prob = Some Dir /\
  s !! report_file prob <> Some Dir.
Proof.
  split.
  - intros (s' & H).
    apply mission_report_ok in H as (totals & dat & doc & Ht & _ & Hnd & Hdir & _).
    eauto.
  - intros ([[totals dat] Ht] & Hdir & Hnd).
    destruct (tables_render _ _ _ Ht) as (doc & Hr).
    eexists. apply (mission_report_written prob kw s totals dat doc); assumption.
Qed.

(** X6.  When the tables are computed but the report file cannot be opened,
    [mission_report] raises what [open] raises and leaves the file system
    as it was: IsADirectoryError when a directory has the name of the
    report file, FileNotFoundError without a reports directory,
    NotADirectoryError when the reports directory is a file. *)
Theorem mission_report_open_failure (prob : AviaryProblem) (kw : kwargs) (s : fs)
    (t : NamedValues * pydict NamedValues) :
  mission_tables prob = Ok t ->
  (s !! report_file prob = Some Dir ->
     mission_report prob kw s = (Raise IsADirectoryError, s)) /\
  (s !! report_file prob <> Some Dir -> s !! get_reports_dir prob = None ->
     mission_report prob kw s = (Raise FileNotFoundError, s)) /\
  (forall c, s !! report_file prob <> Some Dir ->
     s !! get_reports_dir prob = Some (File c) ->
     mission_report prob kw s = (Raise NotADirectoryError, s)).
Proof.
  intros Ht.
  assert (forall e, open_w (report_file prob) s = (Raise e, s) ->
            mission_report prob kw s = (Raise e, s)) as Hraise.
  { intros e Ho. unfold mission_report. fold (report_file prob).
    unfold io_bind at 1. unfold io_lift. rewrite Ht. unfold io_bind at 1.
    rewrite Ho. reflexivity. }
  assert (parent (report_file prob) = get_reports_dir prob) as Hpar
    by apply parent_path_join.
  split; [|split].
  - intros Hrf. apply Hraise. unfold open_w. rewrite Hrf. reflexivity.
  - intros Hnd Hdir. apply Hraise. unfold open_w. rewrite Hpar, Hdir.
    destruct (s !! report_file prob) as [[|c]|]; congruence.
  - intros c Hnd Hdir. apply Hraise. unfold open_w. rewrite Hpar, Hdir.
    destruct (s !! report_file prob) as [[|c']|]; congruence.
Qed.

Lemma mission_report_open_failure_witness :
  mission_report demo_problem [] (<[ report_file demo_problem := Dir ]> demo_fs)
  = (Raise IsADirectoryError, <[ report_file demo_problem := Dir ]> demo_fs) /\
  mission_report demo_problem [] ∅ = (Raise FileNotFoundError, ∅) /\
  mission_report demo_problem [] (<[ ["reports"] := File [] ]> ∅)
  = (Raise NotADirectoryError, <[ ["reports"] := File [] ]> ∅).
Proof.
  assert (mission_tables demo_problem
          = Ok (totals_table (Nd (Num 210)) (Nd (Num 130)) (Nd (Num 900)),
                map data_entry
                  [("climb", (Nd (Num 20), Nd (Num 10), Nd (Num 40)));
                   ("cruise", (Nd (Num 180), Nd (Num 100), Nd (Num 760)));
                   ("descent", (Nd (Num 10), Nd (Num 20), Nd (Num 100)))])) as Ht
    by (reflexivity).
  split; [|split].
  - destruct (mission_report_open_failure demo_problem []
                (<[ report_file demo_problem := Dir ]> demo_fs) _ Ht) as (H & _).
    apply H. apply lookup_insert_eq.
  - destruct (mission_report_open_failure demo_problem [] ∅ _ Ht) as (_ & H & _).
    apply H; [discriminate | reflexivity].
  - destruct (mission_report_open_failure demo_problem []
                (<[ ["reports"] := File [] ]> ∅) _ Ht) as (_ & _ & H).
    apply (H []); [discriminate | reflexivity].
Defined.

(** ** When the tables are computed *)

Lemma phase_loop_complete (prob : ProblemData) (phases : list string) :
  forall (idx : nat) (st : locals),
    (forall p, p ∈ phases ->
       (exists v, phase_deltas prob p = Ok v) /\
       (exists fv, end_values prob p (-1) = Ok fv)) ->
    (idx = 0%nat -> forall p rest, phases = p :: rest ->
       exists iv, end_values prob p 0 = Ok iv) ->
    exists st', phase_loop prob idx phases st = Ok st'.
Proof.
  induction phases as [|p rest IH]; intros idx st Hall Hfirst; [eexists; reflexivity|].
  cbn [phase_loop]. rewrite phase_step_eq.
  destruct (Hall p) as ((v & ->) & (fv & Hfv)); [left|]. cbn [rbind].
  destruct (Nat.eqb idx 0) eqn:Hidx.
  - apply Nat.eqb_eq in Hidx. destruct (Hfirst Hidx p rest eq_refl) as (iv & ->).
    cbn [rbind]. rewrite Hfv. cbn [rbind]. apply IH.
    + intros q Hq. apply Hall. right. exact Hq.
    + intros Hs. discriminate Hs.
  - cbn [rbind]. rewrite Hfv. cbn [rbind]. apply IH.
    + intros q Hq. apply Hall. right. exact Hq.
    + intros Hs. discriminate Hs.
Qed.

Lemma phase_loop_phases_ok (prob : ProblemData) (phases : list string) :
  forall (idx : nat) (st st' : locals),
    phase_loop prob idx phases st = Ok st' ->
    forall p, p ∈ phases ->
      (exists v, phase_deltas prob p = Ok v) /\
      (exists fv, end_values prob p (-1) = Ok fv).
Proof.
  induction phases as [|q rest IH]; intros idx st st' H p Hp.
  - apply elem_of_nil in Hp. contradiction.
  - cbn [phase_loop] in H. apply rbind_ok in H as (st1 & H1 & H).
    apply elem_of_cons in Hp as [->|Hp]; [|eapply IH; eassumption].
    rewrite phase_step_eq in H1.
    apply rbind_ok in H1 as (v & Hv & H1).
    apply rbind_ok in H1 as (st0 & _ & H1).
    apply rbind_ok in H1 as (fv & Hfv & _). eauto.
Qed.

(** X7.  For a mission with phases the tables are computed exactly when
    every phase yields its three deltas and its values at index -1, the
    first phase yields its values at index 0, and the three totals can be
    subtracted. *)
Theorem mission_tables_succeed_iff (prob : ProblemData) (first : string)
    (rest : list string) :
  phase_info prob = first :: rest ->
  (exists t, mission_tables prob = Ok t) <->
  (forall p, p ∈ first :: rest ->
     (exists v, phase_deltas prob p = Ok v) /\
     (exists fv, end_values prob p (-1) = Ok fv)) /\
  (exists iv fv,
     end_values prob first 0 = Ok iv /\
     end_values prob (List.last rest first) (-1) = Ok fv /\
     (exists burn, py_sub (fst (fst iv)) (fst (fst fv)) = Ok burn) /\
     (exists dt, py_sub (snd (fst fv)) (snd (fst iv)) = Ok dt) /\
     (exists dr, py_sub (snd fv) (snd iv) = Ok dr)).
Proof.
  intros Hp. split.
  - intros ([totals dat] & Ht). split.
    + unfold mission_tables in Ht. rewrite Hp in Ht.
      apply rbind_ok in Ht as (st & Hloop & _).
      exact (phase_loop_phases_ok _ _ _ _ _ Hloop).
    + destruct (mission_tables_ok _ _ _ _ _ Hp Ht)
        as (iv & fv & vs & burn & dt & dr & Hiv & Hfv & _ & Hb & Hdt & Hdr & _).
      exists iv, fv. eauto 10.
  - intros (Hall & iv & fv & Hiv & Hfv & (burn & Hb) & (dt & Hdt) & (dr & Hdr)).
    destruct (phase_loop_complete prob (first :: rest) 0 locals0 Hall) as (st & Hloop).
    { intros _ p rest' Heq. injection Heq as <- <-. eauto. }
    destruct (phase_loop_initial _ _ _ _ _ Hloop) as (iv' & Hiv' & Hi1 & Hi2 & Hi3).
    destruct (phase_loop_final _ _ _ _ _ _ Hloop) as (fv' & Hfv' & Hf1 & Hf2 & Hf3).
    rewrite Hiv in Hiv'. injection Hiv' as <-.
    rewrite Hfv in Hfv'. injection Hfv' as <-.
    unfold mission_tables. rewrite Hp, Hloop. cbn [rbind].
    unfold mission_totals. rewrite Hi1, Hi2, Hi3, Hf1, Hf2, Hf3. cbn [read_local rbind].
    rewrite Hb. cbn [rbind]. rewrite Hdt. cbn [rbind]. rewrite Hdr. cbn [rbind].
    eexists. reflexivity.
Qed.

Lemma mission_tables_succeed_iff_witness :
  (exists t, mission_tables demo_problem = Ok t) <->
  (forall p, p ∈ ["climb"; "cruise"; "descent"] ->
     (exists v, phase_deltas demo_problem p = Ok v) /\
     (exists fv, end_values demo_problem p (-1) = Ok fv)) /\
  (exists iv fv,
     end_values demo_problem "climb" 0 = Ok iv /\
     end_values demo_problem "descent" (-1) = Ok fv /\
     (exists burn, py_sub (fst (fst iv)) (fst (fst fv)) = Ok burn) /\
     (exists dt, py_sub (snd (fst fv)) (snd (fst iv)) = Ok dt) /\
     (exists dr, py_sub (snd fv) (snd iv) = Ok dr)).
Proof.
  apply (mission_tables_succeed_iff demo_problem "climb" ["cruise"; "descent"]).
  reflexivity.
Defined.

(** ** Missing and ill-shaped variables *)

(** X8.  [_get_phase_value] returns None only when both the time-series
    path and the scalar path are missing, and a KeyError leaves it only by
    way of the substituted read of the time: the time-series path is
    missing, the scalar read raises TypeError and the time series of time is
    missing too. *)
Theorem get_phase_value_none_iff (prob : ProblemData)
    (traj phase var_name units : string) (idx : indices) :
  let ts := traj +:+ "." +:+ phase +:+ ".timeseries." +:+ var_name in
  let sc := traj +:+ "." +:+ phase +:+ "." +:+ var_name in
  let tm := traj +:+ "." +:+ phase +:+ ".timeseries.time" in
  let r := _get_phase_value prob traj phase var_name units idx in
  (r = Ok PyNone <->
     get_val prob ts units idx = Raise KeyError /\
     get_val prob sc units idx = Raise KeyError) /\
  (r = Raise KeyError <->
     get_val prob ts units idx = Raise KeyError /\
     get_val prob sc units idx = Raise TypeError /\
     get_val prob tm units idx = Raise KeyError).
Proof.
  intros ts sc tm r. subst r. unfold _get_phase_value. fold ts sc tm.
  destruct (get_val prob ts units idx) as [v|e1].
  { split; split; intros H; try discriminate H; destruct H; discriminate. }
  destruct e1;
    try (split; split; intros H; try discriminate H; destruct H; discriminate).
  destruct (get_val prob sc units idx) as [v|e2].
  { split; split; intros H; try discriminate H; destruct H as (_ & H & _) || destruct H as (_ & H);
      discriminate. }
  destruct e2;
    try (split; split; intros H; try discriminate H;
         (destruct H as (_ & H & _) || destruct H as (_ & H)); discriminate).
  - split; split; intros H; try discriminate H; auto.
    destruct H as (_ & H & _). discriminate.
  - destruct (get_val prob tm units idx) as [v|e3]; simpl.
    + split; split; intros H; try discriminate H;
        (destruct H as (_ & _ & H) || destruct H as (_ & H)); discriminate.
    + split; split; intros H; try discriminate H.
      * destruct H as (_ & H). discriminate.
      * injection H as ->. auto.
      * destruct H as (_ & _ & H). injection H as ->. reflexivity.
Qed.

(** A phase whose values at index -1 cannot be read makes the report raise
    before the file is opened. *)
Lemma mission_report_end_values_raise (prob : AviaryProblem) (kw : kwargs) (s : fs)
    (phase : string) (e0 : exn) :
  phase ∈ phase_info prob ->
  end_values prob phase (-1) = Raise e0 ->
  exists e, mission_report prob kw s = (Raise e, s).
Proof.
  intros Hin Hend.
  destruct (mission_tables prob) as [t|e] eqn:Ht.
  - exfalso. unfold mission_tables in Ht.
    apply rbind_ok in Ht as (st & Hloop & _).
    destruct (phase_loop_phases_ok _ _ _ _ _ Hloop phase Hin) as (_ & fv & Hfv).
    congruence.
  - exists e. apply mission_report_raise, Ht.
Qed.

(** X9.  A phase whose mass, or whose distance, is found under neither the
    time-series path nor the scalar path makes [mission_report] raise and
    write nothing, wherever the phase stands in the mission: the read of the
    final value subscripts None. *)
Theorem mission_report_needs_mass_and_distance (prob : AviaryProblem) (kw : kwargs)
    (s : fs) (phase var_name units : string) :
  phase ∈ phase_info prob ->
  (var_name, units) = ("mass", "lbm") \/ (var_name, units) = ("distance", "nmi") ->
  (forall idx,
      get_val prob ("traj" +:+ "." +:+ phase +:+ ".timeseries." +:+ var_name) units idx
      = Raise KeyError) ->
  (forall idx,
      get_val prob ("traj" +:+ "." +:+ phase +:+ "." +:+ var_name) units idx
      = Raise KeyError) ->
  exists e, mission_report prob kw s = (Raise e, s).
Proof.
  intros Hin Hvar Hts Hsc.
  assert (forall idx, _get_phase_value prob "traj" phase var_name units idx = Ok PyNone)
    as Hnone.
  { intros idx. unfold _get_phase_value. rewrite Hts, Hsc. reflexivity. }
  assert (exists e0, end_values prob phase (-1) = Raise e0) as (e0 & He0).
  { unfold end_values. destruct Hvar as [Hv|Hv]; injection Hv as -> ->.
    - rewrite Hnone. eexists. reflexivity.
    - destruct (_get_phase_value prob "traj" phase "mass" "lbm" (IdxInt (-1)))
        as [m|e]; cbn [rbind]; [|eauto].
      destruct (py_getitem m 0) as [m1|e]; cbn [rbind]; [|eauto].
      destruct (_get_phase_value prob "traj" phase "t" "min" (IdxInt (-1)))
        as [t1|e]; cbn [rbind]; [|eauto].
      rewrite Hnone. eexists. reflexivity. }
  eapply mission_report_end_values_raise; eassumption.
Qed.

Lemma mission_report_needs_mass_and_distance_witness :
  exists e, mission_report no_mass_problem [] demo_fs = (Raise e, demo_fs).
Proof.
  apply (mission_report_needs_mass_and_distance no_mass_problem [] demo_fs
           "cruise" "mass" "lbm").
  - cbn. right. left.
  - left. reflexivity.
  - intros idx. reflexivity.
  - intros idx. reflexivity.
Defined.

Lemma mapM_zip_elem {A B : Type} (f : A -> result B) (l : list A) :
  forall (l' : list B) (x : A),
    mapM f l = Ok l' -> x ∈ l ->
    exists y, (x, y) ∈ zip l l' /\ f x = Ok y.
Proof.
  induction l as [|a l IH]; intros l' x H Hx.
  - apply elem_of_nil in Hx. contradiction.
  - cbn [mapM] in H. apply rbind_ok in H as (y & Hy & H).
    apply rbind_ok in H as (ys & Hys & H). injection H as <-.
    apply elem_of_cons in Hx as [->|Hx].
    + exists y. split; [left | exact Hy].
    + destruct (IH ys x Hys Hx) as (y' & Hin & Hfx).
      exists y'. split; [right; exact Hin | exact Hfx].
Qed.

Section TimeAbsent.

Variable prob : AviaryProblem.
Variable phase : string.
Hypothesis no_series : forall idx,
  get_val prob ("traj" +:+ "." +:+ phase +:+ ".timeseries." +:+ "t") "min" idx
  = Raise KeyError.
Hypothesis no_scalar : forall idx,
  get_val prob ("traj" +:+ "." +:+ phase +:+ "." +:+ "t") "min" idx
  = Raise KeyError.

Lemma time_value_none (idx : indices) :
  _get_phase_value prob "traj" phase "t" "min" idx = Ok PyNone.
Proof. unfold _get_phase_value. rewrite no_series, no_scalar. reflexivity. Qed.

Lemma time_delta_none (v : pyval * pyval * pyval) :
  phase_deltas prob phase = Ok v -> snd (fst v) = PyNone.
Proof.
  unfold phase_deltas, _get_phase_diff at 2. rewrite time_value_none. cbn [rbind].
  intros H. apply rbind_ok in H as (fb & _ & H).
  apply rbind_ok in H as (rg & _ & H). injection H as <-. reflexivity.
Qed.

Lemma end_time_none (i : Z) (v : pyval * pyval * pyval) :
  end_values prob phase i = Ok v -> snd (fst v) = PyNone.
Proof.
  unfold end_values. rewrite time_value_none. intros H.
  apply rbind_ok in H as (m & _ & H). apply rbind_ok in H as (m0 & _ & H).
  cbn [rbind] in H.
  apply rbind_ok in H as (r & _ & H). apply rbind_ok in H as (r0 & _ & H).
  injection H as <-. reflexivity.
Qed.

End TimeAbsent.



(** X11.  When the phase without time is the first or the last of the
    mission, [mission_report] raises and writes nothing: Total Time would
    subtract None. *)
Theorem missing_end_time_raises (prob : AviaryProblem) (kw : kwargs) (s : fs)
    (first : string) (rest : list string) (phase : string) :
  phase_info prob = first :: rest ->
  phase = first \/ phase = List.last rest first ->
  (forall idx,
      get_val prob ("traj" +:+ "." +:+ phase +:+ ".timeseries." +:+ "t") "min" idx
      = Raise KeyError) ->
  (forall idx,
      get_val prob ("traj" +:+ "." +:+ phase +:+ "." +:+ "t") "min" idx
      = Raise KeyError) ->
  exists e, mission_report prob kw s = (Raise e, s).
Proof.
  intros Hp Hend Hts Hsc.
  destruct (mission_tables prob) as [[totals dat]|e] eqn:Ht.
  - exfalso.
    destruct (mission_tables_ok _ _ _ _ _ Hp Ht)
      as (iv & fv & vs & burn & dt & dr & Hiv & Hfv & _ & _ & Hdt & _).
    destruct Hend as [->| ->].
    + rewrite (end_time_none prob first Hts Hsc _ _ Hiv) in Hdt.
      destruct (snd (fst fv)); discriminate.
    + rewrite (end_time_none prob _ Hts Hsc _ _ Hfv) in Hdt. discriminate.
  - exists e. apply mission_report_raise, Ht.
Qed.

Lemma missing_end_time_raises_witness :
  exists e, mission_report no_last_time_problem [] demo_fs = (Raise e, demo_fs).
Proof.
  apply (missing_end_time_raises no_last_time_problem [] demo_fs
           "climb" ["cruise"] "cruise").
  - reflexivity.
  - right. reflexivity.
  - intros idx. reflexivity.
  - intros idx. reflexivity.
Defined.

Lemma getitem_empty (i : Z) : getitem (Arr []) i = Raise IndexError.
Proof. unfold getitem. destruct (norm_index (length []) i); reflexivity. Qed.

(** X12.  In a problem backed by a store, a phase one of whose three
    variables resolves to an array without items makes [mission_report]
    raise and write nothing: the delta subscripts the retrieved array. *)
Theorem empty_series_raises (vars : string -> string -> result ndarray)
    (phases : list string) (dir : path) (subs : pydict SubsystemBuilder)
    (kw : kwargs) (s : fs) (phase var_name units : string) :
  phase ∈ phases ->
  (var_name, units) ∈ report_variables ->
  resolve vars "traj" phase var_name units = Ok (Some (Arr [])) ->
  exists e, mission_report (store_problem vars phases dir subs) kw s = (Raise e, s).
Proof.
  intros Hin Hvar Hres.
  assert (forall i j, _get_phase_diff (store_problem vars phases dir subs) "traj" phase
                        var_name units (IdxList [i; j]) = Raise IndexError) as Hdiff.
  { intros i j. rewrite store_phase_diff, Hres. cbn [rbind].
    rewrite getitem_empty. reflexivity. }
  assert (exists e0, phase_deltas (store_problem vars phases dir subs) phase = Raise e0)
    as (e0 & He0).
  { unfold phase_deltas, report_variables, default_indices in *.
    apply elem_of_cons in Hvar as [Hv|Hvar]; [injection Hv as -> ->|].
    { rewrite Hdiff. eexists. reflexivity. }
    destruct (_get_phase_diff _ "traj" phase "mass" "lbm" _) as [fb|e];
      cbn [rbind]; [|eauto].
    apply elem_of_cons in Hvar as [Hv|Hvar]; [injection Hv as -> ->|].
    { rewrite Hdiff. eexists. reflexivity. }
    destruct (_get_phase_diff _ "traj" phase "t" "min" _) as [t|e];
      cbn [rbind]; [|eauto].
    apply elem_of_cons in Hvar as [Hv|Hvar]; [injection Hv as -> ->|].
    { rewrite Hdiff. eexists. reflexivity. }
    apply elem_of_nil in Hvar. contradiction. }
  destruct (mission_tables (store_problem vars phases dir subs)) as [t|e] eqn:Ht.
  - exfalso. unfold mission_tables in Ht.
    apply rbind_ok in Ht as (st & Hloop & _).
    destruct (phase_loop_phases_ok _ _ _ _ _ Hloop phase Hin) as ((v & Hv) & _).
    congruence.
  - exists e. apply mission_report_raise, Ht.
Qed.

Lemma empty_series_raises_witness :
  exists e, mission_report empty_distance_problem [] demo_fs = (Raise e, demo_fs).
Proof.
  apply (empty_series_raises (table_vars empty_distance_vars) ["climb"] ["reports"] []
           [] demo_fs "climb" "distance" "nmi").
  - left.
  - right. right. left.
  - reflexivity.
Defined.

(** X13.  In a problem backed by a store, a phase whose mass resolves to a
    one-dimensional array makes [mission_report] raise and write nothing:
    the final mass read at index -1 is a scalar, which cannot be
    subscripted. *)
Theorem flat_mass_raises (vars : string -> string -> result ndarray)
    (phases : list string) (dir : path) (subs : pydict SubsystemBuilder)
    (kw : kwargs) (s : fs) (phase : string) (xs : list float) :
  phase ∈ phases ->
  resolve vars "traj" phase "mass" "lbm" = Ok (Some (vector xs)) ->
  exists e, mission_report (store_problem vars phases dir subs) kw s = (Raise e, s).
Proof.
  intros Hin Hres.
  assert (exists e0, end_values (store_problem vars phases dir subs) phase (-1)
                     = Raise e0) as (e0 & He0).
  { unfold end_values. rewrite store_phase_value, Hres. cbn [rbind numpy_index].
    destruct (getitem (vector xs) (-1)) as [x|e] eqn:Hx; cbn [rmap rbind]; [|eauto].
    apply getitem_arr in Hx as (l & Hl & Hxl). injection Hl as <-.
    apply list_elem_of_fmap in Hxl as (f & -> & _). eexists. reflexivity. }
  eapply mission_report_end_values_raise; [exact Hin | exact He0].
Qed.

Lemma flat_mass_raises_witness :
  exists e, mission_report flat_mass_problem [] demo_fs = (Raise e, demo_fs).
Proof.
  apply (flat_mass_raises (table_vars flat_mass_vars) ["climb"] ["reports"] [] []
           demo_fs "climb" [1000; 990; 980]%float).
  - left.
  - reflexivity.
Defined.

(** ** What the mission report asks of the problem *)

Section SameQueries.

Variables p1 p2 : ProblemData.
Hypothesis same_queries : same_report_queries p1 p2.

Lemma get_phase_value_same_queries (phase var_name units : string) (idx : indices) :
  phase ∈ phase_info p1 ->
  (var_name, units) ∈ report_variables ->
  idx ∈ report_indices ->
  _get_phase_value p1 "traj" phase var_name units idx
  = _get_phase_value p2 "traj" phase var_name units idx.
Proof.
  intros Hp Hv Hi. unfold _get_phase_value.
  assert (forall p, p ∈ phase_paths phase var_name ->
            get_val p1 p units idx = get_val p2 p units idx) as Hsame.
  { intros p Hpath. exact (same_queries phase var_name units idx p Hp Hv Hi Hpath). }
  unfold phase_paths in Hsame.
  rewrite 3 Hsame by (rewrite ?elem_of_cons; auto). reflexivity.
Qed.

Lemma phase_step_same_queries (idx : nat) (phase : string) (st : locals) :
  phase ∈ phase_info p1 ->
  phase_step p1 idx phase st = phase_step p2 idx phase st.
Proof.
  intros Hp. unfold phase_step, _get_phase_diff, default_indices.
  rewrite !(get_phase_value_same_queries phase "mass" "lbm")
    by (try exact Hp; unfold report_variables, report_indices;
        rewrite ?elem_of_cons; auto 10).
  rewrite !(get_phase_value_same_queries phase "t" "min")
    by (try exact Hp; unfold report_variables, report_indices;
        rewrite ?elem_of_cons; auto 10).
  rewrite !(get_phase_value_same_queries phase "distance" "nmi")
    by (try exact Hp; unfold report_variables, report_indices;
        rewrite ?elem_of_cons; auto 10).
  reflexivity.
Qed.

Lemma phase_loop_same_queries (phases : list string) :
  (forall p, p ∈ phases -> p ∈ phase_info p1) ->
  forall idx st, phase_loop p1 idx phases st = phase_loop p2 idx phases st.
Proof.
  induction phases as [|p rest IH]; intros Hsub idx st; [reflexivity|].
  cbn [phase_loop]. rewrite phase_step_same_queries by (apply Hsub; left).
  destruct (phase_step p2 idx p st) as [st1|e]; cbn [rbind]; [|reflexivity].
  apply IH. intros q Hq. apply Hsub. right. exact Hq.
Qed.

Lemma mission_tables_same_queries :
  phase_info p1 = phase_info p2 -> mission_tables p1 = mission_tables p2.
Proof.
  intros Hp. unfold mission_tables. rewrite <- Hp.
  rewrite phase_loop_same_queries by auto. reflexivity.
Qed.

End SameQueries.

(** X14.  The mission report asks the problem only for the mass in lbm, the
    time t in min and the distance in nmi of the phases of [phase_info], at
    the time-series path, the scalar path and the path of the time series of
    time under the trajectory name traj, with the indices [-1, 0], [0, -1],
    0 and -1.  Two problems that answer these queries alike, with the same
    phases and reports directory, run the same report whatever else they
    hold and whatever options are passed. *)
Theorem mission_report_reads_only_its_queries (p1 p2 : AviaryProblem)
    (kw1 kw2 : kwargs) (s : fs) :
  same_report_queries p1 p2 ->
  phase_info p1 = phase_info p2 ->
  get_reports_dir p1 = get_reports_dir p2 ->
  mission_report p1 kw1 s = mission_report p2 kw2 s.
Proof.
  intros Hq Hp Hdir. unfold mission_report.
  rewrite (mission_tables_same_queries p1 p2 Hq Hp), Hdir. reflexivity.
Qed.

Lemma mission_report_reads_only_its_queries_witness :
  mission_report demo_problem [] demo_fs
  = mission_report more_problem [("verbose", "1")] demo_fs.
Proof.
  apply mission_report_reads_only_its_queries; [|reflexivity|reflexivity].
  intros phase var_name units idx p Hphase Hvar Hidx Hpath.
  cbn [phase_info prob_data demo_problem store_problem] in Hphase.
  unfold report_variables in Hvar. unfold report_indices in Hidx.
  apply elem_of_cons in Hphase as [->|Hphase];
    [|apply elem_of_cons in Hphase as [->|Hphase];
      [|apply elem_of_cons in Hphase as [->|Hphase];
        [|apply elem_of_nil in Hphase; contradiction]]];
  (apply elem_of_cons in Hvar as [Hvar|Hvar];
    [|apply elem_of_cons in Hvar as [Hvar|Hvar];
      [|apply elem_of_cons in Hvar as [Hvar|Hvar];
        [|apply elem_of_nil in Hvar; contradiction]]]);
  injection Hvar as -> ->;
  unfold phase_paths in Hpath;
  (apply elem_of_cons in Hpath as [->|Hpath];
    [|apply elem_of_cons in Hpath as [->|Hpath];
      [|apply elem_of_cons in Hpath as [->|Hpath];
        [|apply elem_of_nil in Hpath; contradiction]]]);
  (apply elem_of_cons in Hidx as [->|Hidx];
    [|apply elem_of_cons in Hidx as [->|Hidx];
      [|apply elem_of_cons in Hidx as [->|Hidx];
        [|apply elem_of_cons in Hidx as [->|Hidx];
          [|apply elem_of_nil in Hidx; contradiction]]]]);
  reflexivity.
Defined.
